(** * mintscript: the build orchestration pipeline of [mintscript.py]

    A shallow embedding of [cd], [tempdir] and [main] over an explicit
    model of the process state (working directory, file system, standard
    output, log, spawned compiler processes), in a state-and-exception
    monad.  The collaborators imported from [enscript] and [latex], the
    typesetting compiler and the operating system's answers are fields of
    an environment record. *)

From Stdlib Require Import ZArith Ascii String List Bool Lia.
From Stdlib Require Import Decimal DecimalString DecimalNat DecimalZ.
From stdpp Require Import base gmap strings list fin_maps.

Open Scope string_scope.
Open Scope list_scope.

(** ** Python strings *)

Module Str.

(** [s.startswith(c)] for a one-character [c]. *)
Definition startswith (c : ascii) (s : string) : bool :=
  match s with
  | String a _ => Ascii.eqb a c
  | EmptyString => false
  end.

(** [s.endswith(c)] for a one-character [c]. *)
Fixpoint endswith (c : ascii) (s : string) : bool :=
  match s with
  | EmptyString => false
  | String a EmptyString => Ascii.eqb a c
  | String _ s' => endswith c s'
  end.

(** [s.rfind(c)]: the highest index of [c] in [s], or [-1]. *)
Fixpoint rfind (c : ascii) (s : string) : Z :=
  match s with
  | EmptyString => (-1)%Z
  | String a s' =>
      let r := rfind c s' in
      if (0 <=? r)%Z then (1 + r)%Z
      else if Ascii.eqb a c then 0%Z else (-1)%Z
  end.

(** The slice [s[i:j]] for indices [0 <= i], [0 <= j]. *)
Definition slice (i j : Z) (s : string) : string :=
  String.substring (Z.to_nat i) (Z.to_nat j - Z.to_nat i) s.

(** The slice [s[i:]]. *)
Definition slice_from (i : Z) (s : string) : string :=
  String.substring (Z.to_nat i) (String.length s - Z.to_nat i) s.

(** The slice [s[:-n]]: everything but the last [n] characters. *)
Definition drop_last (n : nat) (s : string) : string :=
  String.substring 0 (String.length s - n) s.

(** ["%d" % n] for a natural number, ["%s" % z] for an integer. *)
Definition of_nat (n : nat) : string := NilZero.string_of_uint (Nat.to_uint n).
Definition of_Z (z : Z) : string := NilZero.string_of_int (Z.to_int z).

(** Every character of [s] satisfies [p]. *)
Fixpoint all (p : ascii -> bool) (s : string) : bool :=
  match s with
  | EmptyString => true
  | String a s' => p a && all p s'
  end.

End Str.

(** ** [os.path] (posixpath) *)

Module Path.

Definition sep : ascii := "/"%char.
Definition extsep : ascii := "."%char.

Definition isabs (p : string) : bool := Str.startswith sep p.

(** [os.path.join(a, b)]. *)
Definition join (a b : string) : string :=
  if Str.startswith sep b then b
  else if String.eqb a "" || Str.endswith sep a then a +:+ b
  else a +:+ String sep b.

(** [os.path.splitext(p)], after [genericpath._splitext]: the extension
    starts at the last dot that follows the last separator, unless only
    dots stand between that separator and the dot. *)
Definition splitext (p : string) : string * string :=
  let sepIndex := Str.rfind sep p in
  let dotIndex := Str.rfind extsep p in
  if (sepIndex <? dotIndex)%Z then
    if Str.all (fun a => Ascii.eqb a extsep)
         (Str.slice (sepIndex + 1) dotIndex p)
    then (p, "")
    else (Str.slice 0 dotIndex p, Str.slice_from dotIndex p)
  else (p, "").

(** The prefix every path below directory [d] starts with: [d] with a
    trailing separator, which is what [join d ""] returns. *)
Definition dir_prefix (d : string) : string := join d "".

(** [under d k]: the path [k] lies below the directory [d]. *)
Definition under (d k : string) : bool := String.prefix (dir_prefix d) k.

End Path.

(** ** Process state *)

Abbreviation bytes := (list Byte.byte).

(** The exceptions the modelled code can raise. *)
Inductive exn : Type :=
| SystemExit (code : Z)
| OSError (what : string)
| FileNotFoundError (path : string)
| SameFileError (path : string)
| UnicodeDecodeError
| TypeError
| AssertionError
| IndexError.

(** [logging] levels. *)
Inductive level : Type := DEBUG | WARNING | ERROR.

Definition levelno (l : level) : Z :=
  match l with DEBUG => 10 | WARNING => 30 | ERROR => 40 end.

(** One finished [subprocess.call]: the command line, the exit status
    the child returned and the regular files it left behind.  The list of
    these records is a history; no operation reads it. *)
Record call : Type := Call {
  argv : list string;
  status : Z;
  fs_after : gmap string bytes
}.

(** The state of the process and of the part of the machine it touches.
    Regular files and directories are identified by the path string that
    [os.path.join] yields against the working directory. *)
Record world : Type := World {
  cwd : string;
  dirs : gset string;
  files : gmap string bytes;
  stdout : bytes;
  loglevel : level;
  log : list (level * string);
  calls : list call
}.

Definition set_cwd (d : string) (w : world) : world :=
  World d (dirs w) (files w) (stdout w) (loglevel w) (log w) (calls w).
Definition set_dirs (ds : gset string) (w : world) : world :=
  World (cwd w) ds (files w) (stdout w) (loglevel w) (log w) (calls w).
Definition set_files (fs : gmap string bytes) (w : world) : world :=
  World (cwd w) (dirs w) fs (stdout w) (loglevel w) (log w) (calls w).
Definition set_stdout (b : bytes) (w : world) : world :=
  World (cwd w) (dirs w) (files w) b (loglevel w) (log w) (calls w).
Definition set_loglevel (l : level) (w : world) : world :=
  World (cwd w) (dirs w) (files w) (stdout w) l (log w) (calls w).
Definition set_log (l : list (level * string)) (w : world) : world :=
  World (cwd w) (dirs w) (files w) (stdout w) (loglevel w) l (calls w).
Definition set_calls (cs : list call) (w : world) : world :=
  World (cwd w) (dirs w) (files w) (stdout w) (loglevel w) (log w) cs.

(** The namespace [parseargs()] returns, as far as [main] reads it.
    [output] is [None] when the option is absent. *)
Record args : Type := Args {
  file : list string;
  output : option string;
  quiet : bool
}.

(** Everything [main] calls that is not in [mintscript.py]: the
    collaborators of [enscript] and [latex], the compiler, and the answers
    of the operating system that the program cannot determine. *)
Record env : Type := Env {
  options : Type;
  latexoptions : args -> options;
  buildlatex : options -> list string -> string;
  str_options : options -> string;
  (** the directory [tempfile.mkdtemp()] creates, [None] when it fails *)
  mkdtemp_result : option string;
  (** whether [shutil.rmtree] manages to delete the tree *)
  rmtree_ok : bool;
  (** the compiler: command line, working directory and files to exit
      status and files *)
  xelatex : list string -> string -> gmap string bytes -> Z * gmap string bytes;
  (** the locale's text encoding, used by files opened in text mode *)
  encode : string -> bytes;
  decode : bytes -> option string;
  (** what [os.path.expanduser] makes of a path that starts with a tilde *)
  expand_tilde : string -> string
}.

(** ** The state-and-exception monad *)

Inductive result (A : Type) : Type :=
| Ok (a : A)
| Raise (e : exn).
Arguments Ok {A} a.
Arguments Raise {A} e.

Definition M (A : Type) : Type := world -> result A * world.

Definition ret {A} (a : A) : M A := fun w => (Ok a, w).

Definition raise {A} (e : exn) : M A := fun w => (Raise e, w).

Definition bind {A B} (m : M A) (k : A -> M B) : M B :=
  fun w =>
    match m w with
    | (Ok a, w1) => k a w1
    | (Raise e, w1) => (Raise e, w1)
    end.

Notation "x <- m ;; k" := (bind m (fun x => k))
  (at level 100, m at next level, right associativity).
Notation "m ;; k" := (bind m (fun _ => k))
  (at level 100, right associativity).

(** [if b: m] *)
Definition when_ (b : bool) (m : M unit) : M unit :=
  if b then m else ret tt.

(** [for x in l: body(x)] *)
Fixpoint for_ {A} (l : list A) (body : A -> M unit) : M unit :=
  match l with
  | [] => ret tt
  | x :: l' => body x ;; for_ l' body
  end.

(** [try: body finally: fin].  An exception of [fin] replaces the pending
    outcome of [body]. *)
Definition try_finally {A} (body : M A) (fin : M unit) : M A :=
  fun w =>
    match body w with
    | (r, w1) =>
        match fin w1 with
        | (Ok _, w2) => (r, w2)
        | (Raise e, w2) => (Raise e, w2)
        end
    end.

(** [l[i]] *)
Definition getitem {A} (l : list A) (i : nat) : M A :=
  match l !! i with
  | Some x => ret x
  | None => raise IndexError
  end.

(** [assert b] *)
Definition assert_ (b : bool) : M unit :=
  if b then ret tt else raise AssertionError.

(** [sys.exit(code)]: raises [SystemExit] with the code; what the
    process reports when that exception leaves [main] is [exit_code]. *)
Definition sys_exit {A} (code : Z) : M A := raise (SystemExit code).

(** The exit status the operating system reports for a run of the
    script: zero after a normal end, the low eight bits of the code of a
    [SystemExit] (an exit status is one byte on POSIX), and 1 after any
    other exception, which the interpreter prints as a traceback. *)
Definition exit_code (r : result unit) : Z :=
  match r with
  | Ok _ => 0
  | Raise (SystemExit code) => code mod 256
  | Raise _ => 1
  end.

(** ** Library calls

    What the standard library does on the paths the program takes.  The
    failures modelled are a missing source file, a wrong argument type, a
    working directory that is not there, and [mkdtemp] and [rmtree]
    failing; a full disk, missing permissions, a destination that cannot
    be written or a compiler that cannot be spawned are not. *)

(** A record of level [lvl] reaches the log when the level of the root
    logger admits it. *)
Definition emit (lvl : level) (msg : string) : M unit :=
  fun w =>
    (Ok tt,
     if (levelno (loglevel w) <=? levelno lvl)%Z
     then set_log (log w ++ [(lvl, msg)]) w
     else w).

Definition logging_error : string -> M unit := emit ERROR.
Definition logging_debug : string -> M unit := emit DEBUG.

(** [logging.getLogger('').setLevel(l)] *)
Definition setLevel (l : level) : M unit :=
  fun w => (Ok tt, set_loglevel l w).

(** [os.getcwd()] *)
Definition getcwd : M string := fun w => (Ok (cwd w), w).

(** [os.chdir(d)]: the directory has to exist. *)
Definition chdir (d : string) : M unit :=
  fun w =>
    let target := Path.join (cwd w) d in
    if decide (target ∈ dirs w) then (Ok tt, set_cwd target w)
    else (Raise (FileNotFoundError target), w).

(** [os.path.expanduser(p)]: only a leading tilde is expanded. *)
Definition expanduser (E : env) (p : string) : string :=
  if Str.startswith "~" p then expand_tilde E p else p.

(** [os.path.isfile(p)] *)
Definition isfile (p : string) : M bool :=
  fun w => (Ok (bool_decide (is_Some (files w !! Path.join (cwd w) p))), w).

(** [shutil.copyfile(src, dst)]: refuses to copy a file onto itself,
    needs [src] to be a regular file, and (re)writes [dst] with its
    bytes.  The destination is taken to be writable: [dst] is not looked
    at, so the errors of a destination whose directory is missing
    ([FileNotFoundError]) or that names a directory ([IsADirectoryError])
    are outside this model.  The staged names and the derived default lie
    in directories that exist; a statement about a destination the user
    chooses has to assume that it names a regular file. *)
Definition copyfile (src dst : string) : M unit :=
  fun w =>
    let s := Path.join (cwd w) src in
    let d := Path.join (cwd w) dst in
    if String.eqb s d then (Raise (SameFileError s), w)
    else
      match files w !! s with
      | None => (Raise (FileNotFoundError s), w)
      | Some b => (Ok tt, set_files (<[d := b]> (files w)) w)
      end.

(** [with open(name, 'w') as fp: fp.write(text)] *)
Definition write_text (E : env) (name text : string) : M unit :=
  fun w =>
    (Ok tt, set_files (<[Path.join (cwd w) name := encode E text]> (files w)) w).

(** A Python object handed to a stream: text or bytes. *)
Inductive pyobj : Type :=
| PyStr (s : string)
| PyBytes (b : bytes).

(** [open(name).read()]: the file is opened in text mode, its content is
    decoded and comes back as a [str]. *)
Definition open_read (E : env) (name : string) : M pyobj :=
  fun w =>
    let p := Path.join (cwd w) name in
    match files w !! p with
    | None => (Raise (FileNotFoundError p), w)
    | Some b =>
        match decode E b with
        | None => (Raise UnicodeDecodeError, w)
        | Some s => (Ok (PyStr s), w)
        end
    end.

(** [sys.stdout.buffer.write(o)]: the binary layer takes bytes only. *)
Definition stdout_buffer_write (o : pyobj) : M unit :=
  fun w =>
    match o with
    | PyBytes b => (Ok tt, set_stdout (stdout w ++ b) w)
    | PyStr _ => (Raise TypeError, w)
    end.

(** [tempfile.mkdtemp()]: creates the directory the environment names. *)
Definition mkdtemp (E : env) : M string :=
  fun w =>
    match mkdtemp_result E with
    | Some d => (Ok d, set_dirs ({[d]} ∪ dirs w) w)
    | None => (Raise (OSError "mkdtemp"), w)
    end.

(** [shutil.rmtree(d)]: the directory and all below it disappear, or the
    call raises. *)
Definition rmtree (E : env) (d : string) : M unit :=
  fun w =>
    if rmtree_ok E then
      (Ok tt,
       set_dirs (filter (fun k => k ≠ d ∧ Path.under d k = false) (dirs w))
         (set_files (filter (fun kv => Path.under d kv.1 = false) (files w)) w))
    else (Raise (OSError "rmtree"), w).

(** [subprocess.call(commandline)]: runs the compiler to completion in
    the current directory and returns its exit status. *)
Definition subprocess_call (E : env) (commandline : list string) : M Z :=
  fun w =>
    match xelatex E commandline (cwd w) (files w) with
    | (st, fs) =>
        (Ok st, set_calls (calls w ++ [Call commandline st fs]) (set_files fs w))
    end.

(** ** mintscript.py *)

(** [cd], lines 18-33. *)
Definition cd {A} (E : env) (newdir : string) (cleanup : M unit) (body : M A) : M A :=
  prevdir <- getcwd ;;
  chdir (expanduser E newdir) ;;
  try_finally body (chdir prevdir ;; cleanup).

(** [tempdir], lines 35-45. *)
Definition tempdir {A} (E : env) (body : string -> M A) : M A :=
  dirpath <- mkdtemp E ;;
  let cleanup := rmtree E dirpath in
  cd E dirpath cleanup (body dirpath).

(** Lines 57-58. *)
Definition texfile : string := "mintscript.tex".
Definition pdffile : string := Str.drop_last 3 texfile +:+ "pdf".

(** Line 55: the names of the staged files. *)
Definition staged_names (fs : list string) : list string :=
  imap (fun i f => "source" +:+ Str.of_nat i +:+ (Path.splitext f).2) fs.

(** Lines 62-67: the body of the staging loop. *)
Definition stage_one (cwd0 : string) '((oldpath, newpath) : string * string) : M unit :=
  let oldpath := Path.join cwd0 oldpath in
  ok <- isfile oldpath ;;
  when_ (negb ok)
    (logging_error ("Cannot read file " +:+ oldpath) ;; sys_exit 1) ;;
  copyfile oldpath newpath ;;
  logging_debug ("Copied " +:+ oldpath +:+ " to " +:+ newpath).

(** Lines 61-67: the staging loop. *)
Definition stage (cwd0 : string) (inputs names : list string) : M unit :=
  for_ (zip inputs names) (stage_one cwd0).

(** Line 72: the command line of the compiler. *)
Definition commandline : list string :=
  ["xelatex"; "-shell-escape"; "-batch"; texfile].

(** Lines 74-77: one compiler pass, the body of the loop. *)
Definition pass (E : env) : M unit :=
  status <- subprocess_call E commandline ;;
  when_ (negb (status =? 0)%Z)
    (logging_error ("xelatex failed with return code " +:+ Str.of_Z status) ;;
     sys_exit status).

(** Lines 73-77: the two compiler passes. *)
Definition compile (E : env) : M unit :=
  for_ (seq 0 2) (fun _ => pass E).

(** Truth value and [str()] of [args.output]. *)
Definition truthy (o : option string) : bool :=
  match o with
  | Some s => negb (String.eqb s "")
  | None => false
  end.

Definition str_output (o : option string) : string :=
  match o with Some s => s | None => "None" end.

(** Lines 81-87: where the artifact goes. *)
Definition deliver (E : env) (a : args) (cwd0 : string) : M unit :=
  out <- (if negb (truthy (output a))
          then f0 <- getitem (file a) 0 ;;
               ret (Some ((Path.splitext f0).1 +:+ ".pdf"))
          else ret (output a)) ;;
  logging_debug ("Output to " +:+ str_output out) ;;
  match out with
  | Some s =>
      if String.eqb s "-" then
        data <- open_read E pdffile ;;
        stdout_buffer_write data
      else if truthy out then copyfile pdffile (Path.join cwd0 s)
      else ret tt
  | None => ret tt
  end.

(** Lines 61-87: the suite of the [with tempdir()] statement. *)
Definition pipeline (E : env) (a : args) (cwd0 : string)
    (names : list string) (latexcode : string) : M unit :=
  stage cwd0 (file a) names ;;
  assert_ (negb (bool_decide (texfile ∈ names))) ;;
  write_text E texfile latexcode ;;
  logging_debug ("LaTeX code:" +:+ String "010" latexcode) ;;
  compile E ;;
  present <- isfile pdffile ;;
  when_ (negb present)
    (logging_error ("xelatex completed but " +:+ pdffile +:+ " not found in output") ;;
     sys_exit 1) ;;
  deliver E a cwd0.

(** [main], lines 47-87, on the namespace [a] that [parseargs()]
    returned.  The locals [options], [files] and [cwd] of the source are
    [opts], [names] and [cwd0] here, their names being fields of the
    environment and of the state. *)
Definition main (E : env) (a : args) : M unit :=
  when_ (length (file a) <? 1)%nat
    (logging_error "stdin entry is not yet supported" ;; sys_exit 1) ;;
  setLevel (if quiet a then ERROR else DEBUG) ;;
  let opts := latexoptions E a in
  logging_debug (str_options E opts) ;;
  let names := staged_names (file a) in
  let latexcode := buildlatex E opts names in
  cwd0 <- getcwd ;;
  tempdir E (fun _ => pipeline E a cwd0 names latexcode).

(** ** Vocabulary of the statements *)

(** A character other than the dot. *)
Definition nodot (a : ascii) : bool := negb (Ascii.eqb a Path.extsep).

(** The name line 55 gives the [i]-th input [f]. *)
Definition staged_name (i : nat) (f : string) : string :=
  "source" +:+ Str.of_nat i +:+ (Path.splitext f).2.

(** [keeps f m]: whatever its outcome, [m] does not change the part [f]
    of the state. *)
Definition keeps {A B} (f : world -> B) (m : M A) : Prop :=
  forall w, f (m w).2 = f w.

(** [never_ok m]: [m] always ends by raising. *)
Definition never_ok {A} (m : M A) : Prop :=
  forall w, exists e, (m w).1 = Raise e.

(** [off_x f]: the observation [f] of the state does not read field [x]. *)
Definition off_log {B} (f : world -> B) : Prop := forall l w, f (set_log l w) = f w.
Definition off_loglevel {B} (f : world -> B) : Prop := forall l w, f (set_loglevel l w) = f w.
Definition off_files {B} (f : world -> B) : Prop := forall fs w, f (set_files fs w) = f w.
Definition off_calls {B} (f : world -> B) : Prop := forall cs w, f (set_calls cs w) = f w.
Definition off_stdout {B} (f : world -> B) : Prop := forall b w, f (set_stdout b w) = f w.
Definition off_cwd {B} (f : world -> B) : Prop := forall d w, f (set_cwd d w) = f w.
Definition off_dirs {B} (f : world -> B) : Prop := forall ds w, f (set_dirs ds w) = f w.

(** The process has a working directory, and it is an absolute path. *)
Definition world_ok (w : world) : Prop :=
  Path.isabs (cwd w) = true /\ cwd w ∈ dirs w.

(** [mkdtemp] succeeds and returns the absolute path [sb]. *)
Definition sandbox_of (E : env) (sb : string) : Prop :=
  mkdtemp_result E = Some sb /\ Path.isabs sb = true.

(** The inputs do not name paths inside the directory [mkdtemp] is about
    to create. *)
Definition inputs_outside (sb : string) (w : world) (a : args) : Prop :=
  Forall (fun f => Path.under sb (Path.join (cwd w) f) = false) (file a).

(** The state after lines 52-54 of [main]. *)
Definition prelude (E : env) (a : args) (w : world) : world :=
  (emit DEBUG (str_options E (latexoptions E a))
     (set_loglevel (if quiet a then ERROR else DEBUG) w)).2.

(** The state in which the suite of the [with] statement starts. *)
Definition entered (E : env) (a : args) (sb : string) (w : world) : world :=
  set_cwd sb (set_dirs ({[sb]} ∪ dirs w) (prelude E a w)).

(** The state a successful [rmtree sb] leaves. *)
Definition removed (sb : string) (w : world) : world :=
  set_dirs (filter (fun k => k ≠ sb ∧ Path.under sb k = false) (dirs w))
    (set_files (filter (fun kv => Path.under sb kv.1 = false) (files w)) w).

(** The run of the suite inside [main]. *)
Definition suite_run (E : env) (a : args) (sb : string) (w : world) : result unit * world :=
  pipeline E a (cwd w) (staged_names (file a))
    (buildlatex E (latexoptions E a) (staged_names (file a)))
    (entered E a sb w).

(** Lines 61-71: staging and writing the document. *)
Definition before_compile (E : env) (a : args) (cwd0 : string)
    (names : list string) (latexcode : string) : M unit :=
  stage cwd0 (file a) names ;;
  assert_ (negb (bool_decide (texfile ∈ names))) ;;
  write_text E texfile latexcode ;;
  logging_debug ("LaTeX code:" +:+ String "010" latexcode).

(** Lines 78-87: the artifact check and the delivery. *)
Definition after_compile (E : env) (a : args) (cwd0 : string) : M unit :=
  present <- isfile pdffile ;;
  when_ (negb present)
    (logging_error ("xelatex completed but " +:+ pdffile +:+ " not found in output") ;;
     sys_exit 1) ;;
  deliver E a cwd0.

(** [E] with a [shutil.rmtree] that succeeds. *)
Definition deletion_succeeds (E : env) : env :=
  Env (options E) (latexoptions E) (buildlatex E) (str_options E)
      (mkdtemp_result E) true (xelatex E) (encode E) (decode E) (expand_tilde E).

(** What claim C2 asks of a run whose teardown cannot delete the sandbox,
    against the same run with a deletion that succeeds: the failure leaves
    a log record, and the outcome of the run is the one it would have had
    (an earlier failure is not masked, a success is not turned into a
    crash). *)
Definition teardown_failure_contained (E : env) (a : args) (w : world) : Prop :=
  rmtree_ok E = false ->
  (exists entry, entry ∈ log (main E a w).2 /\
                 entry ∉ log (main (deletion_succeeds E) a w).2) /\
  (main E a w).1 = (main (deletion_succeeds E) a w).1.

(** The [i]-th compiler call in the history of a run. *)
Definition run_call (r : result unit * world) (i : nat) : call :=
  nth i (calls r.2) (Call [] 0 ∅).

(** What claim C4 asks of a run whose last compiler pass returned a
    non-zero status: that status is the exit status of the process. *)
Definition exits_with_compiler_status (E : env) (a : args) (w : world) : Prop :=
  forall pre c,
    calls (main E a w).2 = calls w ++ pre ++ [c] -> status c <> 0%Z ->
    exit_code (main E a w).1 = status c.

(** [raises_only P m]: every exception [m] can end with satisfies [P]. *)
Definition raises_only {A} (P : exn -> Prop) (m : M A) : Prop :=
  forall w e, (m w).1 = Raise e -> P e.

(** The exceptions of a guarded index and of a passing assertion. *)
Definition guarded (e : exn) : Prop := e <> IndexError /\ e <> AssertionError.

(** [quietly m]: started with the root logger at level [ERROR], [m]
    leaves it there and adds nothing but [ERROR] records to the log. *)
Definition quietly {A} (m : M A) : Prop :=
  forall w, loglevel w = ERROR ->
    loglevel (m w).2 = ERROR /\
    exists new, log (m w).2 = log w ++ new /\ Forall (fun r => r.1 = ERROR) new.

(** A character other than the path separator. *)
Definition nosep (a : ascii) : bool := negb (Ascii.eqb a Path.sep).

(** The state in which the suite of [with tempdir()] starts, for any
    caller. *)
Definition inside (sb : string) (w : world) : world :=
  set_cwd sb (set_dirs ({[sb]} ∪ dirs w) w).

(** ** A concrete machine *)

(** The bytes [%PDF]. *)
Definition demo_pdf : bytes := [Byte.x25; Byte.x50; Byte.x44; Byte.x46].

(** A compiler that returns [st] and, when [makes_pdf], leaves the
    artifact in its working directory. *)
Definition demo_xelatex (st : Z) (makes_pdf : bool)
    (cmd : list string) (d : string) (fs : gmap string bytes) : Z * gmap string bytes :=
  (st, if makes_pdf then <[Path.join d pdffile := demo_pdf]> fs else fs).

(** An environment whose [rmtree] succeeds iff [deletes], around the
    compiler [demo_xelatex st makes_pdf]. *)
Definition demo_env (deletes : bool) (st : Z) (makes_pdf : bool) : env :=
  Env unit (fun _ => tt) (fun _ _ => "\documentclass{article}") (fun _ => "{}")
      (Some "/tmp/tmpq1w2e3") deletes (demo_xelatex st makes_pdf)
      (fun _ => []) (fun _ => Some "%PDF") (fun p => p).

(** A compiler that succeeds on its first pass, leaving [mintscript.aux]
    behind, and returns [st] on every pass that finds that file. *)
Definition demo_xelatex_rerun (st : Z)
    (cmd : list string) (d : string) (fs : gmap string bytes) : Z * gmap string bytes :=
  match fs !! Path.join d "mintscript.aux" with
  | Some _ => (st, fs)
  | None => (0%Z, <[Path.join d "mintscript.aux" := []]> fs)
  end.

(** The environment around the compiler [demo_xelatex_rerun st]. *)
Definition demo_env_rerun (st : Z) : env :=
  Env unit (fun _ => tt) (fun _ _ => "\documentclass{article}") (fun _ => "{}")
      (Some "/tmp/tmpq1w2e3") true (demo_xelatex_rerun st)
      (fun _ => []) (fun _ => Some "%PDF") (fun p => p).

(** A process in [/home/u], where [foo/bar.py] exists. *)
Definition demo_world : world :=
  World "/home/u" {["/home/u"]} {["/home/u/foo/bar.py" := [Byte.x61]]}
        [] WARNING [] [].

(** The arguments [foo/bar.py] with destination [o]. *)
Definition demo_args (o : option string) : args := Args ["foo/bar.py"] o false.

(** The state of the demonstration machine inside its sandbox. *)
Definition demo_inside : world :=
  World "/tmp/tmpq1w2e3" {["/home/u"; "/tmp/tmpq1w2e3"]}
        {["/home/u/foo/bar.py" := [Byte.x61]]} [] DEBUG [] [].

(** [writes_below m]: [m] stays in the working directory and changes no
    file outside it. *)
Definition writes_below {A} (m : M A) : Prop :=
  forall w, cwd (m w).2 = cwd w /\
    forall k, Path.under (cwd w) k = false -> files (m w).2 !! k = files w !! k.

(** The concrete environment with a [mkdtemp] that fails. *)
Definition demo_env_no_tmp : env :=
  Env unit (fun _ => tt) (fun _ _ => "\documentclass{article}") (fun _ => "{}")
      None true (demo_xelatex 0 true)
      (fun _ => []) (fun _ => Some "%PDF") (fun p => p).

(** * Worked examples *)

Example splitext_py : Path.splitext "foo/bar.py" = ("foo/bar", ".py").
Proof. reflexivity. Qed.
Example splitext_noext : Path.splitext "a.b/Makefile" = ("a.b/Makefile", "").
Proof. reflexivity. Qed.
Example splitext_dotfile : Path.splitext "dir/.bashrc" = ("dir/.bashrc", "").
Proof. reflexivity. Qed.
Example splitext_two : Path.splitext "x.tar.gz" = ("x.tar", ".gz").
Proof. reflexivity. Qed.
Example splitext_dots : Path.splitext "..." = ("...", "").
Proof. reflexivity. Qed.
Example splitext_trailing : Path.splitext "a." = ("a", ".").
Proof. reflexivity. Qed.
Example join_rel : Path.join "/home/u" "a.py" = "/home/u/a.py".
Proof. reflexivity. Qed.
Example join_abs : Path.join "/home/u" "/etc/a.py" = "/etc/a.py".
Proof. reflexivity. Qed.
Example of_nat_12 : Str.of_nat 12 = "12".
Proof. reflexivity. Qed.
Example of_Z_neg : Str.of_Z (-11) = "-11".
Proof. reflexivity. Qed.

(** Runs of [main] on the concrete machine, one per way out of the
    suite. *)
Example run_normal :
  let r := main (demo_env true 0 true) (demo_args None) demo_world in
  r.1 = Ok tt /\ cwd r.2 = "/home/u" /\ elements (dirs r.2) = ["/home/u"] /\
  map status (calls r.2) = [0%Z; 0%Z] /\
  files r.2 !! "/home/u/foo/bar.pdf" = Some demo_pdf.
Proof. by vm_compute. Qed.

Example run_staging_failure :
  let r := main (demo_env true 0 true) (Args ["nope.c"] None false) demo_world in
  r.1 = Raise (SystemExit 1) /\ cwd r.2 = "/home/u" /\
  elements (dirs r.2) = ["/home/u"] /\ calls r.2 = [] /\
  log r.2 = [(DEBUG, "{}"); (ERROR, "Cannot read file /home/u/nope.c")].
Proof. by vm_compute. Qed.

Example run_compiler_failure :
  let r := main (demo_env true 3 false) (demo_args None) demo_world in
  r.1 = Raise (SystemExit 3) /\ cwd r.2 = "/home/u" /\
  elements (dirs r.2) = ["/home/u"] /\ map status (calls r.2) = [3%Z].
Proof. by vm_compute. Qed.

Example run_artifact_missing :
  let r := main (demo_env true 0 false) (demo_args None) demo_world in
  r.1 = Raise (SystemExit 1) /\ cwd r.2 = "/home/u" /\
  elements (dirs r.2) = ["/home/u"] /\ map status (calls r.2) = [0%Z; 0%Z].
Proof. by vm_compute. Qed.

Example run_to_stdout :
  let r := main (demo_env true 0 true) (demo_args (Some "-")) demo_world in
  r.1 = Raise TypeError /\ stdout r.2 = [] /\ cwd r.2 = "/home/u" /\
  elements (dirs r.2) = ["/home/u"].
Proof. by vm_compute. Qed.

Example run_deletion_fails :
  let r := main (demo_env false 0 true) (demo_args None) demo_world in
  r.1 = Raise (OSError "rmtree") /\ cwd r.2 = "/home/u" /\
  "/tmp/tmpq1w2e3" ∈ dirs r.2.
Proof. by vm_compute. Qed.

(** An explicit destination that names an existing file, here the input
    itself, is overwritten with the artifact. *)
Example run_explicit_destination :
  let r := main (demo_env true 0 true) (demo_args (Some "foo/bar.py")) demo_world in
  r.1 = Ok tt /\ files r.2 !! "/home/u/foo/bar.py" = Some demo_pdf.
Proof. by vm_compute. Qed.

(** A compiler killed by signal 11: [subprocess.call] returns -11, and
    the process exits with 245. *)
Example run_compiler_killed :
  let r := main (demo_env true (-11) false) (demo_args None) demo_world in
  r.1 = Raise (SystemExit (-11)) /\ map status (calls r.2) = [(-11)%Z] /\
  exit_code r.1 = 245%Z.
Proof. by vm_compute. Qed.

(** A second pass that fails. *)
Example run_second_pass_fails :
  let r := main (demo_env_rerun 2) (demo_args None) demo_world in
  r.1 = Raise (SystemExit 2) /\ map status (calls r.2) = [0%Z; 2%Z] /\
  exit_code r.1 = 2%Z.
Proof. by vm_compute. Qed.

(** * Facts about strings and paths *)

Section StringFacts.

Implicit Types (s t p k : string) (c : ascii).

Lemma append_cons c s t : String c s +:+ t = String c (s +:+ t).
Proof. reflexivity. Qed.

Lemma append_nil_r s : s +:+ "" = s.
Proof. induction s as [|a s IH]; [done | by rewrite append_cons, IH]. Qed.

Lemma append_assoc s t p : (s +:+ t) +:+ p = s +:+ (t +:+ p).
Proof. induction s as [|a s IH]; [done | by rewrite !append_cons, IH]. Qed.

Lemma append_inv_head s t p : s +:+ t = s +:+ p -> t = p.
Proof.
  induction s as [|a s IH]; [done |].
  rewrite !append_cons. intros [= H]. auto.
Qed.

Lemma prefix_nil k : String.prefix "" k = true.
Proof. by destruct k. Qed.

Lemma prefix_append s t : String.prefix s (s +:+ t) = true.
Proof.
  induction s as [|a s IH]; [apply prefix_nil |].
  rewrite append_cons. simpl.
  destruct (ascii_dec a a); [done | congruence].
Qed.

Lemma prefix_inv s k : String.prefix s k = true -> exists t, k = s +:+ t.
Proof.
  revert k; induction s as [|a s IH]; intros k H; [by exists k |].
  destruct k as [|b k]; simpl in H; [done |].
  destruct (ascii_dec a b) as [->|]; [| done].
  destruct (IH _ H) as [t ->]. by exists t.
Qed.

Lemma endswith_append_one s c : Str.endswith c (s +:+ String c "") = true.
Proof.
  induction s as [|a s IH]; [apply Ascii.eqb_refl |].
  rewrite append_cons. simpl.
  destruct (s +:+ String c "") eqn:Hs; [by destruct s | done].
Qed.

Lemma endswith_nonempty c s : Str.endswith c s = true -> s <> "".
Proof. by destruct s. Qed.

(** A prefix that ends with [c] cannot end inside a string free of [c]. *)
Lemma prefix_endswith_absurd c p s :
  Str.endswith c p = true ->
  Str.all (fun a => negb (Ascii.eqb a c)) s = true ->
  String.prefix p s = true -> False.
Proof.
  revert s; induction p as [|a p IH]; intros s He Hs Hp; [done |].
  destruct s as [|b s]; simpl in Hp; [done |].
  destruct (ascii_dec a b) as [->|]; [| done].
  simpl in Hs. apply andb_true_iff in Hs as [Hb Hs].
  destruct p as [|a' p].
  - simpl in He. rewrite He in Hb. done.
  - apply (IH s); done.
Qed.

(** Replacing a separator-free tail by any other tail keeps a path
    below the directories it was below. *)
Lemma prefix_change_tail c p x s t :
  Str.endswith c p = true ->
  Str.all (fun a => negb (Ascii.eqb a c)) s = true ->
  String.prefix p (x +:+ s) = true ->
  String.prefix p (x +:+ t) = true.
Proof.
  revert p; induction x as [|b x IH]; intros p He Hs Hp.
  - destruct (prefix_endswith_absurd c p s He Hs Hp).
  - destruct p as [|a p]; [done |]. rewrite append_cons in *. simpl in *.
    destruct (ascii_dec a b) as [->|]; [| done].
    destruct p as [|a' p]; [apply prefix_nil |].
    apply IH; done.
Qed.

Lemma substring_all p : String.substring 0 (String.length p) p = p.
Proof. induction p as [|a p IH]; simpl; [done | by rewrite IH]. Qed.

Lemma substring_split p n :
  String.substring 0 n p +:+ String.substring n (String.length p - n) p = p.
Proof.
  revert n; induction p as [|a p IH]; intros n.
  - by destruct n.
  - destruct n as [|n].
    + change (String.substring 0 0 (String a p)) with "".
      rewrite Nat.sub_0_r. apply substring_all.
    + change (String.substring 0 (S n) (String a p))
        with (String a (String.substring 0 n p)).
      rewrite append_cons. f_equal. apply IH.
Qed.

Lemma rfind_ge c p : (-1 <= Str.rfind c p)%Z.
Proof.
  induction p as [|a p IH]; simpl; [lia |].
  destruct (Z.leb_spec 0 (Str.rfind c p)); [lia |].
  destruct (Ascii.eqb a c); lia.
Qed.

(** The slice that starts at the index [rfind] returns starts with the
    character looked for. *)
Lemma rfind_slice_from c p :
  (0 <= Str.rfind c p)%Z ->
  Str.startswith c (Str.slice_from (Str.rfind c p) p) = true.
Proof.
  unfold Str.slice_from.
  induction p as [|a p IH]; simpl; [lia |].
  destruct (Z.leb_spec 0 (Str.rfind c p)) as [Hr|Hr].
  - intros _. rewrite Z2Nat.inj_add by lia. simpl. by apply IH.
  - destruct (Ascii.eqb a c) eqn:Ha; [| lia].
    intros _. simpl. done.
Qed.

End StringFacts.

Section PathFacts.

Implicit Types (a b d k n p : string).

Lemma join_absolute a b : Path.isabs b = true -> Path.join a b = b.
Proof. unfold Path.isabs, Path.join. by intros ->. Qed.

Lemma join_relative a b :
  Path.isabs b = false -> Path.join a b = Path.dir_prefix a +:+ b.
Proof.
  unfold Path.isabs, Path.dir_prefix, Path.join. intros ->. simpl.
  destruct (String.eqb a "" || Str.endswith Path.sep a).
  - by rewrite append_nil_r.
  - by rewrite append_assoc.
Qed.

Lemma dir_prefix_endswith d :
  d <> "" -> Str.endswith Path.sep (Path.dir_prefix d) = true.
Proof.
  intros Hd. unfold Path.dir_prefix, Path.join. simpl.
  destruct (String.eqb_spec d ""); [done |]. simpl.
  destruct (Str.endswith Path.sep d) eqn:He.
  - by rewrite append_nil_r.
  - apply endswith_append_one.
Qed.

Lemma under_join d n :
  Path.isabs n = false -> Path.under d (Path.join d n) = true.
Proof.
  intros Hn. unfold Path.under. rewrite (join_relative d n Hn).
  apply prefix_append.
Qed.

Lemma join_inj d n1 n2 :
  Path.isabs n1 = false -> Path.isabs n2 = false ->
  Path.join d n1 = Path.join d n2 -> n1 = n2.
Proof.
  intros H1 H2. rewrite !join_relative by done. apply append_inv_head.
Qed.

Lemma isabs_nonempty d : Path.isabs d = true -> d <> "".
Proof. by destruct d. Qed.

Lemma splitext_append p : (Path.splitext p).1 +:+ (Path.splitext p).2 = p.
Proof.
  unfold Path.splitext.
  destruct (_ <? _)%Z; [| apply append_nil_r].
  destruct (Str.all _ _); [apply append_nil_r |].
  simpl. unfold Str.slice, Str.slice_from. simpl.
  rewrite Nat.sub_0_r. apply substring_split.
Qed.

(** An extension is empty or starts with a dot. *)
Lemma splitext_ext p :
  (Path.splitext p).2 = "" \/
  Str.startswith Path.extsep (Path.splitext p).2 = true.
Proof.
  unfold Path.splitext.
  destruct (Z.ltb_spec (Str.rfind Path.sep p) (Str.rfind Path.extsep p)) as [Hlt|];
    [| by left].
  destruct (Str.all _ _); [by left |].
  right. simpl. apply rfind_slice_from.
  pose proof (rfind_ge Path.sep p). lia.
Qed.

Lemma splitext_ext_relative p : Path.isabs (Path.splitext p).2 = false.
Proof.
  destruct (splitext_ext p) as [->|H]; [done |].
  unfold Path.isabs. destruct (Path.splitext p).2 as [|a e]; [done |].
  simpl in *. apply Ascii.eqb_eq in H as ->. done.
Qed.

(** Joining commutes with changing the tail of a path whose stem is
    kept: both results share one prefix. *)
Lemma join_stem c r e1 e2 :
  Path.isabs e1 = false -> Path.isabs e2 = false ->
  exists x, Path.join c (r +:+ e1) = x +:+ e1 /\ Path.join c (r +:+ e2) = x +:+ e2.
Proof.
  intros H1 H2. destruct r as [|a r].
  - exists (Path.dir_prefix c). simpl. by rewrite !join_relative.
  - destruct (Path.isabs (String a r)) eqn:Ha.
    + exists (String a r). by rewrite !join_absolute.
    + exists (Path.dir_prefix c +:+ String a r).
      rewrite !join_relative by done. by rewrite !append_assoc.
Qed.

(** The default destination derived from an input outside directory
    [d] lies outside [d] too. *)
Lemma derived_not_under d c f :
  d <> "" ->
  Path.under d (Path.join c f) = false ->
  Path.under d (Path.join c ((Path.splitext f).1 +:+ ".pdf")) = false.
Proof.
  intros Hd Hf.
  destruct (Path.under d (Path.join c (_ +:+ ".pdf"))) eqn:Hu; [| done].
  rewrite <- (splitext_append f) in Hf.
  destruct (join_stem c (Path.splitext f).1 ".pdf" (Path.splitext f).2)
    as (x & E1 & E2); [done | apply splitext_ext_relative |].
  unfold Path.under in *. rewrite E1 in Hu. rewrite E2 in Hf.
  rewrite (prefix_change_tail Path.sep _ x ".pdf" _) in Hf; try done.
  by apply dir_prefix_endswith.
Qed.

End PathFacts.

(** * Facts about the staged names *)

Section StagedNames.

Lemma string_of_uint_nodot d : Str.all nodot (NilEmpty.string_of_uint d) = true.
Proof. induction d; simpl; auto. Qed.

Lemma of_nat_nodot n : Str.all nodot (Str.of_nat n) = true.
Proof.
  unfold Str.of_nat, NilZero.string_of_uint.
  destruct (Nat.to_uint n); try done; apply (string_of_uint_nodot (_ _)).
Qed.

Lemma to_uint_nonnil n : Nat.to_uint n <> Nil.
Proof.
  rewrite <- (DecimalNat.Unsigned.of_to n), DecimalNat.Unsigned.to_of.
  apply DecimalFacts.unorm_nonnil.
Qed.

Lemma of_nat_inj i j : Str.of_nat i = Str.of_nat j -> i = j.
Proof.
  unfold Str.of_nat. intros H.
  apply DecimalNat.Unsigned.to_uint_inj.
  apply (f_equal NilZero.uint_of_string) in H.
  rewrite !NilZero.usu in H by apply to_uint_nonnil.
  congruence.
Qed.

(** Two dot-free strings followed by extensions agree only if the
    dot-free parts agree. *)
Lemma nodot_split s1 s2 e1 e2 :
  Str.all nodot s1 = true -> Str.all nodot s2 = true ->
  (e1 = "" \/ Str.startswith Path.extsep e1 = true) ->
  (e2 = "" \/ Str.startswith Path.extsep e2 = true) ->
  s1 +:+ e1 = s2 +:+ e2 -> s1 = s2.
Proof.
  assert (Hcross : forall a s e e',
    Str.all nodot (String a s) = true ->
    (e' = "" \/ Str.startswith Path.extsep e' = true) ->
    e' = String a s +:+ e -> False).
  { intros a s e e' Hs [->|He] Heq; [done |]. subst e'.
    rewrite append_cons in He. simpl in *.
    apply andb_true_iff in Hs as [Ha _]. unfold nodot in Ha.
    by rewrite He in Ha. }
  revert s2; induction s1 as [|a s1 IH]; intros s2 H1 H2 He1 He2 Heq.
  - destruct s2 as [|b s2]; [done |]. destruct (Hcross _ _ _ _ H2 He1 Heq).
  - destruct s2 as [|b s2].
    + symmetry in Heq. destruct (Hcross _ _ _ _ H1 He2 Heq).
    + rewrite !append_cons in Heq. injection Heq as -> Heq.
      simpl in H1, H2.
      apply andb_true_iff in H1 as [_ H1]. apply andb_true_iff in H2 as [_ H2].
      f_equal. by apply IH.
Qed.

Lemma staged_names_lookup l i :
  staged_names l !! i = staged_name i <$> l !! i.
Proof. unfold staged_names. by rewrite list_lookup_imap. Qed.

Lemma staged_names_length l : length (staged_names l) = length l.
Proof. apply length_imap. Qed.

Lemma staged_name_inj i j f g : staged_name i f = staged_name j g -> i = j.
Proof.
  unfold staged_name. intros H. apply append_inv_head in H.
  apply of_nat_inj.
  eapply nodot_split; eauto using of_nat_nodot, splitext_ext.
Qed.

Lemma staged_names_elem n l :
  n ∈ staged_names l -> exists i f, l !! i = Some f /\ n = staged_name i f.
Proof.
  intros [i Hi]%list_elem_of_lookup. rewrite staged_names_lookup in Hi.
  destruct (l !! i) as [f|] eqn:Hf; [| done].
  injection Hi as <-. eauto.
Qed.

Lemma staged_names_NoDup l : NoDup (staged_names l).
Proof.
  apply NoDup_alt. intros i j n Hi Hj.
  rewrite staged_names_lookup in Hi, Hj.
  destruct (l !! i) as [f|]; [| done]. destruct (l !! j) as [g|]; [| done].
  injection Hi as Hi. injection Hj as Hj.
  apply (staged_name_inj i j f g). congruence.
Qed.

Lemma staged_name_relative i f : Path.isabs (staged_name i f) = false.
Proof. reflexivity. Qed.

Lemma staged_name_not_texfile i f : staged_name i f <> texfile.
Proof. unfold staged_name, texfile. rewrite append_cons. discriminate. Qed.

Lemma texfile_not_staged l : texfile ∉ staged_names l.
Proof.
  intros (i & f & _ & H)%staged_names_elem.
  by apply (staged_name_not_texfile i f).
Qed.

End StagedNames.

(** * Reasoning about runs *)

(** ** Fields an action leaves alone *)

Section Frame.

Context {B : Type} (f : world -> B).

Lemma keeps_ret {A} (a : A) : keeps f (ret a).
Proof. by intros w. Qed.

Lemma keeps_raise {A} e : keeps f (@raise A e).
Proof. by intros w. Qed.

Lemma keeps_bind {A C} (m : M A) (k : A -> M C) :
  keeps f m -> (forall a, keeps f (k a)) -> keeps f (bind m k).
Proof.
  intros Hm Hk w. unfold bind. specialize (Hm w).
  destruct (m w) as [[a|e] w1]; simpl in *; [| done].
  by rewrite Hk.
Qed.

Lemma keeps_when b m : keeps f m -> keeps f (when_ b m).
Proof. destruct b; [done | intros _; apply keeps_ret]. Qed.

Lemma keeps_for {A} (l : list A) body :
  (forall x, keeps f (body x)) -> keeps f (for_ l body).
Proof.
  intros Hb. induction l as [|x l IH]; simpl; [apply keeps_ret |].
  apply keeps_bind; auto.
Qed.

Lemma keeps_try_finally {A} (body : M A) fin :
  keeps f body -> keeps f fin -> keeps f (try_finally body fin).
Proof.
  intros Hb Hf w. unfold try_finally. specialize (Hb w).
  destruct (body w) as [r w1]. specialize (Hf w1).
  destruct (fin w1) as [[[]|e] w2]; simpl in *; congruence.
Qed.

Lemma keeps_getitem {A} (l : list A) i : keeps f (getitem l i).
Proof. unfold getitem. destruct (l !! i); [apply keeps_ret | apply keeps_raise]. Qed.

Lemma keeps_assert b : keeps f (assert_ b).
Proof. destruct b; [apply keeps_ret | apply keeps_raise]. Qed.

Lemma keeps_sys_exit {A} code : keeps f (@sys_exit A code).
Proof. apply keeps_raise. Qed.

Lemma keeps_getcwd : keeps f getcwd.
Proof. by intros w. Qed.

Lemma keeps_isfile p : keeps f (isfile p).
Proof. by intros w. Qed.

Lemma keeps_open_read E p : keeps f (open_read E p).
Proof. intros w. unfold open_read. by repeat case_match. Qed.

Lemma keeps_emit lvl msg : off_log f -> keeps f (emit lvl msg).
Proof. intros H w. unfold emit. simpl. case_match; auto. Qed.

Lemma keeps_logging_error msg : off_log f -> keeps f (logging_error msg).
Proof. apply keeps_emit. Qed.

Lemma keeps_logging_debug msg : off_log f -> keeps f (logging_debug msg).
Proof. apply keeps_emit. Qed.

Lemma keeps_setLevel l : off_loglevel f -> keeps f (setLevel l).
Proof. intros H w. apply H. Qed.

Lemma keeps_copyfile s d : off_files f -> keeps f (copyfile s d).
Proof. intros H w. unfold copyfile. repeat case_match; simpl; auto. Qed.

Lemma keeps_write_text E n t : off_files f -> keeps f (write_text E n t).
Proof. intros H w. apply H. Qed.

Lemma keeps_subprocess_call E cmd :
  off_files f -> off_calls f -> keeps f (subprocess_call E cmd).
Proof.
  intros H1 H2 w. unfold subprocess_call. case_match. simpl.
  by rewrite H2, H1.
Qed.

Lemma keeps_chdir d : off_cwd f -> keeps f (chdir d).
Proof. intros H w. unfold chdir. case_match; simpl; auto. Qed.

Lemma keeps_mkdtemp E : off_dirs f -> keeps f (mkdtemp E).
Proof. intros H w. unfold mkdtemp. case_match; simpl; auto. Qed.

Lemma keeps_rmtree E d : off_dirs f -> off_files f -> keeps f (rmtree E d).
Proof.
  intros H1 H2 w. unfold rmtree. case_match; [| done]. simpl.
  by rewrite H1, H2.
Qed.

Lemma keeps_stage cwd0 inputs names :
  off_log f -> off_files f -> keeps f (stage cwd0 inputs names).
Proof.
  intros Hl Hf. apply keeps_for. intros [o n]. unfold stage_one.
  repeat first
    [ apply keeps_bind; [| intros ?] | apply keeps_when
    | apply keeps_isfile | apply keeps_sys_exit
    | apply keeps_logging_error | apply keeps_logging_debug
    | apply keeps_copyfile | done ].
Qed.

Lemma keeps_compile E :
  off_log f -> off_files f -> off_calls f -> keeps f (compile E).
Proof.
  intros Hl Hf Hc. apply keeps_for. intros _.
  repeat first
    [ apply keeps_bind; [| intros ?] | apply keeps_when
    | apply keeps_subprocess_call | apply keeps_sys_exit
    | apply keeps_logging_error | done ].
Qed.

(** The only write to standard output hands over the [str] that
    [open_read] returned, which the binary stream refuses. *)
Lemma keeps_dump E p :
  keeps f (data <- open_read E p ;; stdout_buffer_write data).
Proof.
  intros w. unfold bind, open_read, stdout_buffer_write.
  repeat case_match; simplify_eq; done.
Qed.

Lemma keeps_deliver E a cwd0 :
  off_log f -> off_files f -> keeps f (deliver E a cwd0).
Proof.
  intros Hl Hf. unfold deliver.
  apply keeps_bind.
  { destruct (negb _); [| apply keeps_ret].
    apply keeps_bind; [apply keeps_getitem | intros; apply keeps_ret]. }
  intros out. apply keeps_bind; [by apply keeps_logging_debug |].
  intros _. destruct out as [s|]; [| apply keeps_ret].
  destruct (String.eqb s "-"); [apply keeps_dump |].
  destruct (truthy _); [by apply keeps_copyfile | apply keeps_ret].
Qed.

Lemma keeps_pipeline E a cwd0 names code :
  off_log f -> off_files f -> off_calls f -> keeps f (pipeline E a cwd0 names code).
Proof.
  intros Hl Hf Hc. unfold pipeline.
  repeat first
    [ apply keeps_stage | apply keeps_compile | apply keeps_deliver
    | apply keeps_assert | apply keeps_write_text | apply keeps_isfile
    | apply keeps_sys_exit
    | apply keeps_logging_error | apply keeps_logging_debug
    | apply keeps_when | apply keeps_bind; [| intros ?] | done ].
Qed.

End Frame.

(** ** The shape of a run of [main] *)

Section MainShape.

Lemma prelude_frame {B} (f : world -> B) E a w :
  off_log f -> off_loglevel f -> f (prelude E a w) = f w.
Proof.
  intros Hl Hv. unfold prelude.
  rewrite (keeps_emit f _ _ Hl). apply Hv.
Qed.

Lemma expanduser_absolute E p : Path.isabs p = true -> expanduser E p = p.
Proof.
  unfold expanduser, Path.isabs. destruct p as [|c p]; [done |]. simpl.
  intros ->%Ascii.eqb_eq. done.
Qed.

Lemma bind_ok {A B} (m : M A) (k : A -> M B) w a w1 :
  m w = (Ok a, w1) -> bind m k w = k a w1.
Proof. unfold bind. by intros ->. Qed.

Lemma bind_raise {A B} (m : M A) (k : A -> M B) w e w1 :
  m w = (Raise e, w1) -> bind m k w = (Raise e, w1).
Proof. unfold bind. by intros ->. Qed.

Lemma bind_assoc {A B C} (m : M A) (k : A -> M B) (h : B -> M C) w :
  bind (bind m k) h w = bind m (fun x => bind (k x) h) w.
Proof. unfold bind. by destruct (m w) as [[x|e] w1]. Qed.

Lemma suite_run_cwd E a sb w : cwd (suite_run E a sb w).2 = sb.
Proof. unfold suite_run. by rewrite keeps_pipeline. Qed.

Lemma suite_run_dirs E a sb w :
  dirs (suite_run E a sb w).2 = {[sb]} ∪ dirs w.
Proof.
  unfold suite_run. rewrite keeps_pipeline by done.
  reflexivity.
Qed.

Lemma main_run E a w sb :
  sandbox_of E sb -> world_ok w -> file a <> [] ->
  main E a w =
    if rmtree_ok E
    then ((suite_run E a sb w).1, removed sb (set_cwd (cwd w) (suite_run E a sb w).2))
    else (Raise (OSError "rmtree"), set_cwd (cwd w) (suite_run E a sb w).2).
Proof.
  intros [Hmk Hsb] [Habs Hin] Hfile.
  assert (Hlen : (length (file a) <? 1)%nat = false).
  { destruct (file a); [done | reflexivity]. }
  unfold main. rewrite Hlen.
  erewrite bind_ok by reflexivity.
  erewrite bind_ok by reflexivity.
  rewrite (bind_ok (logging_debug _) _ _ tt (prelude E a w)) by reflexivity.
  rewrite (bind_ok getcwd _ _ (cwd w) (prelude E a w))
    by (unfold getcwd; by rewrite (prelude_frame cwd)).
  unfold tempdir.
  rewrite (bind_ok (mkdtemp E) _ _ sb
             (set_dirs ({[sb]} ∪ dirs w) (prelude E a w))).
  2:{ unfold mkdtemp. rewrite Hmk. by rewrite (prelude_frame dirs). }
  unfold cd.
  rewrite (bind_ok getcwd _ _ (cwd w) (set_dirs ({[sb]} ∪ dirs w) (prelude E a w)))
    by (unfold getcwd; cbn [cwd set_dirs]; by rewrite (prelude_frame cwd)).
  rewrite (bind_ok (chdir _) _ _ tt (entered E a sb w)).
  2:{ unfold chdir.
      rewrite (expanduser_absolute _ _ Hsb), (join_absolute _ _ Hsb).
      rewrite decide_True; [reflexivity |]. simpl. set_solver. }
  unfold try_finally. fold (suite_run E a sb w).
  pose proof (suite_run_dirs E a sb w) as Hdirs.
  destruct (suite_run E a sb w) as [r w2]. simpl in Hdirs.
  unfold bind, chdir. rewrite (join_absolute _ _ Habs).
  rewrite decide_True; [| rewrite Hdirs; by apply elem_of_union_r].
  unfold rmtree. destruct (rmtree_ok E); reflexivity.
Qed.

End MainShape.

(** ** Runs that cannot end normally, and whole runs *)

Section NeverOk.

Lemma never_ok_raise {A} e : never_ok (@raise A e).
Proof. intros w. by exists e. Qed.

Lemma never_ok_bind_l {A B} (m : M A) (k : A -> M B) :
  never_ok m -> never_ok (bind m k).
Proof.
  intros Hm w. unfold bind. destruct (Hm w) as [e He].
  destruct (m w) as [[x|e'] w1]; simpl in *; [done | by exists e'].
Qed.

Lemma never_ok_bind_r {A B} (m : M A) (k : A -> M B) :
  (forall x, never_ok (k x)) -> never_ok (bind m k).
Proof.
  intros Hk w. unfold bind.
  destruct (m w) as [[x|e'] w1]; [apply Hk | by exists e'].
Qed.

Lemma never_ok_try_finally {A} (body : M A) fin :
  never_ok body -> never_ok (try_finally body fin).
Proof.
  intros Hb w. unfold try_finally. destruct (Hb w) as [e He].
  destruct (body w) as [r w1]. simpl in He. subst r.
  destruct (fin w1) as [[[]|e'] w2]; simpl; eauto.
Qed.

Lemma never_ok_dump E p :
  never_ok (data <- open_read E p ;; stdout_buffer_write data).
Proof.
  intros w. unfold bind, open_read, stdout_buffer_write.
  repeat case_match; simplify_eq; simpl; eauto.
Qed.

Lemma never_ok_deliver E a cwd0 :
  output a = Some "-" -> never_ok (deliver E a cwd0).
Proof.
  intros Ho w. unfold deliver. rewrite Ho. simpl.
  rewrite (bind_ok (ret _) _ w (Some "-") w) by reflexivity.
  apply (never_ok_bind_r (logging_debug _) _ (fun _ => never_ok_dump E pdffile) w).
Qed.

End NeverOk.

Section WholeRun.

Lemma never_ok_pipeline E a cwd0 names code :
  output a = Some "-" -> never_ok (pipeline E a cwd0 names code).
Proof.
  intros Ho. unfold pipeline.
  do 7 (apply never_ok_bind_r; intros ?).
  by apply never_ok_deliver.
Qed.

Lemma never_ok_main E a : output a = Some "-" -> never_ok (main E a).
Proof.
  intros Ho. unfold main.
  do 4 (apply never_ok_bind_r; intros ?).
  unfold tempdir. apply never_ok_bind_r; intros ?.
  unfold cd. do 2 (apply never_ok_bind_r; intros ?).
  apply never_ok_try_finally. by apply never_ok_pipeline.
Qed.

(** [main] changes nothing that its log, log level, files, compiler
    history, working directory and directories do not determine: in
    particular it never writes to standard output. *)
Lemma keeps_main {B} (f : world -> B) E a :
  off_log f -> off_loglevel f -> off_files f -> off_calls f ->
  off_cwd f -> off_dirs f -> keeps f (main E a).
Proof.
  intros Hl Hv Hf Hc Hw Hd. unfold main, tempdir, cd.
  repeat first
    [ apply keeps_pipeline | apply keeps_mkdtemp | apply keeps_rmtree
    | apply keeps_chdir | apply keeps_getcwd | apply keeps_setLevel
    | apply keeps_sys_exit | apply keeps_try_finally
    | apply keeps_logging_error | apply keeps_logging_debug
    | apply keeps_when | apply keeps_bind; [| intros ?] | done ].
Qed.

Lemma deletion_succeeds_suite E a sb w :
  suite_run (deletion_succeeds E) a sb w = suite_run E a sb w.
Proof. destruct E. reflexivity. Qed.

Lemma deletion_succeeds_sandbox E sb :
  sandbox_of E sb -> sandbox_of (deletion_succeeds E) sb.
Proof. by destruct E. Qed.

Lemma removed_lookup sb w k :
  files (removed sb w) !! k =
    if Path.under sb k then None else files w !! k.
Proof.
  unfold removed. simpl.
  destruct (Path.under sb k) eqn:Hu.
  - apply map_lookup_filter_None. right. intros x _. simpl. congruence.
  - destruct (files w !! k) as [x|] eqn:Hk.
    + apply map_lookup_filter_Some. done.
    + apply map_lookup_filter_None. by left.
Qed.

Lemma removed_dirs sb w k :
  k ∈ dirs (removed sb w) <-> k ∈ dirs w /\ k ≠ sb /\ Path.under sb k = false.
Proof. unfold removed. simpl. rewrite elem_of_filter. tauto. Qed.

End WholeRun.

(** ** The phases of the suite *)

Section Phases.

Lemma bind4_assoc {A} (m1 m2 m3 m4 : M unit) (rest : M A) w :
  (m1 ;; m2 ;; m3 ;; m4 ;; rest) w = ((m1 ;; m2 ;; m3 ;; m4) ;; rest) w.
Proof.
  unfold bind.
  destruct (m1 w) as [[[]|e1] w1]; [| done].
  destruct (m2 w1) as [[[]|e2] w2]; [| done].
  destruct (m3 w2) as [[[]|e3] w3]; [| done].
  by destruct (m4 w3) as [[[]|e4] w4].
Qed.

Lemma pipeline_split E a cwd0 names code w :
  pipeline E a cwd0 names code w =
  (before_compile E a cwd0 names code ;; compile E ;; after_compile E a cwd0) w.
Proof. unfold pipeline, before_compile. apply bind4_assoc. Qed.

Lemma emit_error_run msg w :
  logging_error msg w = (Ok tt, set_log (log w ++ [(ERROR, msg)]) w).
Proof.
  unfold logging_error, emit.
  replace (levelno (loglevel w) <=? levelno ERROR)%Z with true; [done |].
  symmetry. apply Z.leb_le. by destruct (loglevel w).
Qed.

Lemma pass_cases E w :
  exists c,
    argv c = commandline /\
    calls (pass E w).2 = calls w ++ [c] /\
    cwd (pass E w).2 = cwd w /\
    stdout (pass E w).2 = stdout w /\
    files (pass E w).2 = fs_after c /\
    ((status c = 0%Z /\ (pass E w).1 = Ok tt) \/
     (status c <> 0%Z /\ (pass E w).1 = Raise (SystemExit (status c)))).
Proof.
  destruct (xelatex E commandline (cwd w) (files w)) as [st fs] eqn:Hx.
  set (c := Call commandline st fs).
  set (w1 := set_calls (calls w ++ [c]) (set_files fs w)).
  assert (Hsub : subprocess_call E commandline w = (Ok st, w1)).
  { unfold subprocess_call. by rewrite Hx. }
  assert (Hrun : pass E w =
    if (st =? 0)%Z then (Ok tt, w1)
    else (Raise (SystemExit st),
          set_log (log w1 ++ [(ERROR, "xelatex failed with return code "
                                       +:+ Str.of_Z st)]) w1)).
  { unfold pass. rewrite (bind_ok _ _ _ _ _ Hsub).
    destruct (st =? 0)%Z; cbn [negb when_]; [done |].
    erewrite bind_ok by apply emit_error_run. done. }
  rewrite Hrun. exists c.
  destruct (Z.eqb_spec st 0) as [Hst|Hst]; simpl; repeat split; auto.
Qed.

(** The compiler loop: either both passes return zero, or the first
    non-zero status ends the loop as the exit status. *)
Lemma compile_cases E w :
  exists new,
    calls (compile E w).2 = calls w ++ new /\
    Forall (fun c => argv c = commandline) new /\
    cwd (compile E w).2 = cwd w /\
    stdout (compile E w).2 = stdout w /\
    (((compile E w).1 = Ok tt /\
      exists c1 c2, new = [c1; c2] /\ status c1 = 0%Z /\ status c2 = 0%Z /\
                    files (compile E w).2 = fs_after c2) \/
     (exists pre c, new = pre ++ [c] /\
        Forall (fun c => status c = 0%Z) pre /\ (length pre <= 1)%nat /\
        status c <> 0%Z /\
        (compile E w).1 = Raise (SystemExit (status c)))).
Proof.
  change (compile E w) with ((pass E ;; pass E ;; ret tt) w).
  unfold bind.
  destruct (pass_cases E w) as (c1 & Ha1 & Hc1 & Hw1 & Ho1 & _ & Hr1).
  destruct (pass E w) as [r1 w1]. simpl in *.
  destruct Hr1 as [[Hs1 ->]|[Hs1 ->]].
  2:{ exists [c1]. repeat split; [done | by repeat constructor | done | done |].
      right. exists [], c1. repeat split; [constructor | simpl; lia | done]. }
  destruct (pass_cases E w1) as (c2 & Ha2 & Hc2 & Hw2 & Ho2 & Hf2 & Hr2).
  destruct (pass E w1) as [r2 w2]. simpl in *.
  exists [c1; c2].
  assert (Hcalls : calls w2 = calls w ++ [c1; c2]).
  { rewrite Hc2, Hc1, <- app_assoc. done. }
  destruct Hr2 as [[Hs2 ->]|[Hs2 ->]]; simpl.
  - repeat split; [done | by repeat constructor | congruence | congruence |].
    left. split; [done |]. by eexists _, _.
  - repeat split; [done | by repeat constructor | congruence | congruence |].
    right. exists [c1], c2.
    repeat split; [by repeat constructor | simpl; lia | done].
Qed.

Lemma join_isabs c f : Path.isabs c = true -> Path.isabs (Path.join c f) = true.
Proof.
  intros Hc. destruct (Path.isabs f) eqn:Hf.
  - by rewrite join_absolute.
  - unfold Path.join. unfold Path.isabs in Hf. rewrite Hf.
    destruct c as [|x c]; [done |].
    by destruct (_ || _); rewrite append_cons.
Qed.

Lemma append_pdf_not_dash x : String.eqb (x +:+ ".pdf") "-" = false.
Proof.
  apply String.eqb_neq. destruct x as [|c x]; [done |].
  rewrite append_cons. intros [= _ H]. by destruct x.
Qed.

Lemma append_pdf_truthy x : truthy (Some (x +:+ ".pdf")) = true.
Proof.
  unfold truthy. apply negb_true_iff, String.eqb_neq. by destruct x.
Qed.

(** The artifact is missing: the run exits with 1 and only the log
    changes. *)
Lemma after_compile_missing E a cwd0 w :
  files w !! Path.join (cwd w) pdffile = None ->
  after_compile E a cwd0 w =
    (Raise (SystemExit 1),
     set_log (log w ++ [(ERROR, "xelatex completed but " +:+ pdffile
                                 +:+ " not found in output")]) w).
Proof.
  intros Hnone. unfold after_compile.
  rewrite (bind_ok (isfile _) _ w false w).
  2:{ unfold isfile. rewrite Hnone.
      by rewrite bool_decide_eq_false_2 by by intros [? ?]. }
  simpl. erewrite bind_raise; [reflexivity |].
  erewrite bind_ok by apply emit_error_run. reflexivity.
Qed.

(** The artifact is there and no destination is configured: it is
    copied to the path derived from the first input. *)
Lemma after_compile_default E a cwd0 w b f0 :
  files w !! Path.join (cwd w) pdffile = Some b ->
  truthy (output a) = false ->
  file a !! 0%nat = Some f0 ->
  Path.isabs cwd0 = true ->
  Path.join cwd0 ((Path.splitext f0).1 +:+ ".pdf") <> Path.join (cwd w) pdffile ->
  (after_compile E a cwd0 w).1 = Ok tt /\
  files (after_compile E a cwd0 w).2
    = <[Path.join cwd0 ((Path.splitext f0).1 +:+ ".pdf") := b]> (files w) /\
  cwd (after_compile E a cwd0 w).2 = cwd w.
Proof.
  intros Hpdf Ho Hf0 Habs Hne.
  set (dst := (Path.splitext f0).1 +:+ ".pdf") in *.
  set (w1 := (logging_debug ("Output to " +:+ dst) w).2).
  assert (Hc : cwd w1 = cwd w) by by apply (keeps_logging_debug cwd).
  assert (Hfs : files w1 = files w) by by apply (keeps_logging_debug files).
  assert (Hrun : after_compile E a cwd0 w =
            (Ok tt, set_files (<[Path.join cwd0 dst := b]> (files w)) w1)).
  { unfold after_compile.
    rewrite (bind_ok (isfile _) _ w true w).
    2:{ unfold isfile. rewrite Hpdf. by rewrite bool_decide_eq_true_2. }
    simpl. rewrite (bind_ok (ret ()) _ w tt w) by done.
    unfold deliver. rewrite Ho. simpl.
    erewrite bind_ok.
    2:{ erewrite bind_ok; [reflexivity |]. unfold getitem. by rewrite Hf0. }
    fold dst.
    rewrite (bind_ok (logging_debug _) _ w tt w1) by done.
    unfold dst at 1. rewrite append_pdf_not_dash.
    unfold dst at 1. rewrite append_pdf_truthy.
    unfold copyfile. rewrite Hc, Hfs.
    rewrite (join_absolute (cwd w) (Path.join cwd0 dst)) by by apply join_isabs.
    destruct (String.eqb_spec (Path.join (cwd w) pdffile) (Path.join cwd0 dst))
      as [Heq|_]; [by destruct Hne |].
    by rewrite Hpdf. }
  rewrite Hrun. done.
Qed.

Lemma pipeline_cases E a cwd0 names code w :
  cwd (pipeline E a cwd0 names code w).2 = cwd w /\
  stdout (pipeline E a cwd0 names code w).2 = stdout w /\
  ((exists e, before_compile E a cwd0 names code w
              = (Raise e, (pipeline E a cwd0 names code w).2) /\
              (pipeline E a cwd0 names code w).1 = Raise e /\
              calls (pipeline E a cwd0 names code w).2 = calls w) \/
   (exists pre c,
      calls (pipeline E a cwd0 names code w).2 = calls w ++ pre ++ [c] /\
      Forall (fun c => argv c = commandline) (pre ++ [c]) /\
      Forall (fun c => status c = 0%Z) pre /\ (length pre <= 1)%nat /\
      status c <> 0%Z /\
      (pipeline E a cwd0 names code w).1 = Raise (SystemExit (status c))) \/
   (exists c1 c2 w4,
      calls w4 = calls w ++ [c1; c2] /\
      argv c1 = commandline /\ argv c2 = commandline /\
      status c1 = 0%Z /\ status c2 = 0%Z /\
      files w4 = fs_after c2 /\ cwd w4 = cwd w /\ stdout w4 = stdout w /\
      pipeline E a cwd0 names code w = after_compile E a cwd0 w4 /\
      calls (pipeline E a cwd0 names code w).2 = calls w ++ [c1; c2])).
Proof.
  split; [by apply keeps_pipeline |]. split.
  { apply (keeps_pipeline stdout); done. }
  rewrite pipeline_split.
  assert (Hb_calls : keeps calls (before_compile E a cwd0 names code)).
  { unfold before_compile.
    repeat first
      [ apply keeps_stage | apply keeps_assert | apply keeps_write_text
      | apply keeps_logging_debug | apply keeps_bind; [| intros ?] | done ]. }
  assert (Hb_cwd : keeps cwd (before_compile E a cwd0 names code)).
  { unfold before_compile.
    repeat first
      [ apply keeps_stage | apply keeps_assert | apply keeps_write_text
      | apply keeps_logging_debug | apply keeps_bind; [| intros ?] | done ]. }
  assert (Hb_out : keeps stdout (before_compile E a cwd0 names code)).
  { unfold before_compile.
    repeat first
      [ apply keeps_stage | apply keeps_assert | apply keeps_write_text
      | apply keeps_logging_debug | apply keeps_bind; [| intros ?] | done ]. }
  assert (Ha_calls : keeps calls (after_compile E a cwd0)).
  { unfold after_compile.
    repeat first
      [ apply keeps_deliver | apply keeps_isfile | apply keeps_sys_exit
      | apply keeps_logging_error | apply keeps_when
      | apply keeps_bind; [| intros ?] | done ]. }
  specialize (Hb_calls w). specialize (Hb_cwd w). specialize (Hb_out w).
  destruct (before_compile E a cwd0 names code w) as [[[]|e] w3] eqn:Hb;
    simpl in Hb_calls, Hb_cwd, Hb_out.
  2:{ rewrite (bind_raise _ _ _ _ _ Hb). left. by exists e. }
  rewrite (bind_ok _ _ _ _ _ Hb).
  destruct (compile_cases E w3) as (new & Hcalls & Hargv & Hcwd & Hout & Hcases).
  destruct (compile E w3) as [[[]|e] w4] eqn:Hc; simpl in *.
  - rewrite (bind_ok _ _ _ _ _ Hc).
    destruct Hcases as [(_ & c1 & c2 & -> & H1 & H2 & Hfs)|(pre & c & _ & _ & _ & _ & Hr)];
      [| done].
    right; right. exists c1, c2, w4.
    apply Forall_cons in Hargv as [Ha1 Hargv].
    apply Forall_cons in Hargv as [Ha2 _].
    rewrite Ha_calls. repeat split; congruence.
  - rewrite (bind_raise _ _ _ _ _ Hc).
    destruct Hcases as [(Hr & _)|(pre & c & -> & Hpre & Hlen & Hst & Hr)];
      [done |].
    right; left. exists pre, c. simpl. repeat split; try done; congruence.
Qed.

End Phases.

Section RunFacts.

Lemma main_no_input E a w :
  file a = [] ->
  (main E a w).1 = Raise (SystemExit 1) /\ calls (main E a w).2 = calls w.
Proof.
  intros Hf. unfold main. rewrite Hf.
  erewrite bind_raise.
  2:{ cbn [length Nat.ltb Nat.leb when_].
      erewrite bind_ok by apply emit_error_run. reflexivity. }
  done.
Qed.

Lemma main_calls E a w sb :
  sandbox_of E sb -> world_ok w -> file a <> [] ->
  calls (main E a w).2 = calls (suite_run E a sb w).2 /\
  stdout (main E a w).2 = stdout (suite_run E a sb w).2 /\
  log (main E a w).2 = log (suite_run E a sb w).2.
Proof.
  intros Hsb Hw Hf. rewrite (main_run E a w sb Hsb Hw Hf).
  by destruct (rmtree_ok E).
Qed.

Lemma entered_calls E a sb w : calls (entered E a sb w) = calls w.
Proof. unfold entered. simpl. by apply prelude_frame. Qed.

Lemma entered_stdout E a sb w : stdout (entered E a sb w) = stdout w.
Proof. unfold entered. simpl. by apply prelude_frame. Qed.

Lemma entered_files E a sb w : files (entered E a sb w) = files w.
Proof. unfold entered. simpl. by apply prelude_frame. Qed.

(** A run whose history shows two passes that both returned zero
    reached the artifact check in the state the second pass left. *)
Lemma run_both_passes E a w sb c1 c2 :
  sandbox_of E sb -> world_ok w ->
  calls (main E a w).2 = calls w ++ [c1; c2] ->
  status c1 = 0%Z -> status c2 = 0%Z ->
  file a <> [] /\
  exists w4,
    files w4 = fs_after c2 /\ cwd w4 = sb /\ stdout w4 = stdout w /\
    suite_run E a sb w = after_compile E a (cwd w) w4.
Proof.
  intros Hsb Hw Hcalls H1 H2.
  assert (Hf : file a <> []).
  { intros Hf. destruct (main_no_input E a w Hf) as [_ Hc].
    rewrite Hc in Hcalls. rewrite <- (app_nil_r (calls w)) in Hcalls at 1.
    by apply app_inv_head in Hcalls. }
  split; [done |].
  destruct (main_calls E a w sb Hsb Hw Hf) as (Hmc & _ & _).
  rewrite Hmc in Hcalls. unfold suite_run in *.
  destruct (pipeline_cases E a (cwd w) (staged_names (file a))
    (buildlatex E (latexoptions E a) (staged_names (file a)))
    (entered E a sb w)) as (_ & _ & Hcases).
  rewrite entered_calls in Hcases.
  destruct Hcases as [(e & _ & _ & Hc)|[(pre & c & Hc & _ & _ & _ & Hst & _)
    |(c1' & c2' & w4 & Hc4 & _ & _ & _ & _ & Hfs & Hcwd & Hout & Hrun & Hc)]].
  - rewrite Hc in Hcalls. rewrite <- (app_nil_r (calls w)) in Hcalls at 1.
    by apply app_inv_head in Hcalls.
  - rewrite Hc in Hcalls. apply app_inv_head in Hcalls.
    destruct pre as [|p [|p' pre]]; simpl in Hcalls; simplify_eq.
    by destruct pre.
  - rewrite Hc in Hcalls. apply app_inv_head in Hcalls. simplify_eq.
    exists w4. rewrite entered_stdout in Hout. done.
Qed.

(** Delivery to the default destination, for claims C8 and C10. *)
Lemma default_delivery E a w sb c1 c2 b :
  sandbox_of E sb -> world_ok w -> rmtree_ok E = true ->
  inputs_outside sb w a ->
  truthy (output a) = false ->
  calls (main E a w).2 = calls w ++ [c1; c2] ->
  status c1 = 0%Z -> status c2 = 0%Z ->
  fs_after c2 !! Path.join sb pdffile = Some b ->
  exists f0, file a !! 0%nat = Some f0 /\
    (main E a w).1 = Ok tt /\
    files (main E a w).2 !! Path.join (cwd w) ((Path.splitext f0).1 +:+ ".pdf")
      = Some b.
Proof.
  intros Hsb Hw Hrm Hout Ho Hcalls H1 H2 Hb.
  destruct (run_both_passes E a w sb c1 c2 Hsb Hw Hcalls H1 H2)
    as (Hf & w4 & Hfs & Hcwd & _ & Hrun).
  destruct (file a) as [|f0 rest] eqn:Hfile; [done |].
  exists f0. split; [done |].
  assert (Hu : Path.under sb (Path.join (cwd w) ((Path.splitext f0).1 +:+ ".pdf"))
               = false).
  { apply derived_not_under; [apply isabs_nonempty, Hsb |].
    unfold inputs_outside in Hout. rewrite Hfile in Hout.
    by apply Forall_cons in Hout as [? _]. }
  destruct (after_compile_default E a (cwd w) w4 b f0) as (Hr & Hfiles & _).
  - by rewrite Hcwd, Hfs.
  - done.
  - by rewrite Hfile.
  - apply Hw.
  - rewrite Hcwd. intros Heq. rewrite Heq in Hu.
    by rewrite under_join in Hu.
  - rewrite (main_run E a w sb Hsb Hw) by by rewrite Hfile.
    rewrite Hrm, Hrun. cbn [fst snd]. split; [done |].
    rewrite removed_lookup, Hu. cbn [files set_cwd].
    rewrite Hfiles. apply lookup_insert_eq.
Qed.

End RunFacts.

Lemma demo_world_ok : world_ok demo_world.
Proof. split; [reflexivity | simpl; set_solver]. Qed.

Lemma demo_sandbox d st p : sandbox_of (demo_env d st p) "/tmp/tmpq1w2e3".
Proof. by split. Qed.

(** * The claims *)

(** C9: the fixed document name [mintscript.tex] differs from every
    staged name [source<i><ext>], whatever the input list, so the
    assertion of line 68 passes in every state. *)
Theorem C9_texfile_never_collides (inputs : list string) (w : world) :
  (forall i f, inputs !! i = Some f ->
     staged_names inputs !! i
       = Some ("source" +:+ Str.of_nat i +:+ (Path.splitext f).2) /\
     "source" +:+ Str.of_nat i +:+ (Path.splitext f).2 <> texfile) /\
  (texfile ∉ staged_names inputs) /\
  assert_ (negb (bool_decide (texfile ∈ staged_names inputs))) w = (Ok tt, w).
Proof.
  split; [| split].
  - intros i f Hf. split.
    + rewrite staged_names_lookup, Hf. reflexivity.
    + apply (staged_name_not_texfile i f).
  - apply texfile_not_staged.
  - rewrite bool_decide_eq_false_2 by apply texfile_not_staged. reflexivity.
Qed.

(** C3: a run that enters the sandbox leaves it on every path, whatever
    the outcome of the suite: afterwards the working directory is the one
    the run started in, and the sandbox directory and everything below it
    are gone (the deletion itself succeeding). *)
Theorem C3_sandbox_released (E : env) (a : args) (w : world) (sb : string) :
  sandbox_of E sb -> world_ok w -> file a <> [] -> rmtree_ok E = true ->
  cwd (main E a w).2 = cwd w /\
  (sb ∉ dirs (main E a w).2) /\
  (forall k, Path.under sb k = true ->
     files (main E a w).2 !! k = None /\ (k ∉ dirs (main E a w).2)) /\
  (main E a w).1 = (suite_run E a sb w).1.
Proof.
  intros Hsb Hw Hf Hrm. rewrite (main_run E a w sb Hsb Hw Hf), Hrm.
  cbn [fst snd]. split; [done |]. split; [| split; [| done]].
  - rewrite removed_dirs. by intros (_ & Hne & _).
  - intros k Hk. split.
    + by rewrite removed_lookup, Hk.
    + rewrite removed_dirs. intros (_ & _ & Hu). congruence.
Qed.

Lemma C3_sandbox_released_witness :
  cwd (main (demo_env true 0 true) (demo_args None) demo_world).2 = "/home/u" /\
  ("/tmp/tmpq1w2e3" ∉ dirs (main (demo_env true 0 true) (demo_args None) demo_world).2).
Proof.
  destruct (C3_sandbox_released (demo_env true 0 true) (demo_args None)
    demo_world "/tmp/tmpq1w2e3") as (H1 & H2 & _).
  - apply demo_sandbox.
  - apply demo_world_ok.
  - discriminate.
  - reflexivity.
  - by split.
Defined.

(** C2, as the code has it: when the deletion of the sandbox fails during
    teardown, the failure is not logged; it leaves the run as an uncaught
    error, whatever the outcome of the suite was, and the working
    directory is still restored. *)
Theorem C2_teardown_failure_propagates (E : env) (a : args) (w : world) (sb : string) :
  sandbox_of E sb -> world_ok w -> file a <> [] -> rmtree_ok E = false ->
  (main E a w).1 = Raise (OSError "rmtree") /\
  cwd (main E a w).2 = cwd w /\
  log (main E a w).2 = log (main (deletion_succeeds E) a w).2.
Proof.
  intros Hsb Hw Hf Hrm.
  rewrite (main_run E a w sb Hsb Hw Hf), Hrm.
  rewrite (main_run _ a w sb (deletion_succeeds_sandbox _ _ Hsb) Hw Hf).
  rewrite deletion_succeeds_suite.
  replace (rmtree_ok (deletion_succeeds E)) with true by by destruct E.
  done.
Qed.

Lemma C2_teardown_failure_propagates_witness :
  (main (demo_env false 0 true) (demo_args None) demo_world).1
    = Raise (OSError "rmtree").
Proof.
  refine (proj1 (C2_teardown_failure_propagates (demo_env false 0 true)
    (demo_args None) demo_world "/tmp/tmpq1w2e3" _ _ _ _)).
  - apply demo_sandbox.
  - apply demo_world_ok.
  - discriminate.
  - reflexivity.
Defined.

(** C2 as stated fails: with a deletion that fails, a run whose suite
    succeeded ends in the error of the deletion, a run whose suite had
    exited with status 1 ends in that error too, and in neither the log
    gains a record. *)
Lemma C2_counterexample :
  ~ teardown_failure_contained (demo_env false 0 true) (demo_args None) demo_world /\
  ~ teardown_failure_contained (demo_env false 0 false) (demo_args None) demo_world /\
  (main (deletion_succeeds (demo_env false 0 true)) (demo_args None) demo_world).1
    = Ok tt /\
  (main (demo_env false 0 true) (demo_args None) demo_world).1
    = Raise (OSError "rmtree") /\
  (main (deletion_succeeds (demo_env false 0 false)) (demo_args None) demo_world).1
    = Raise (SystemExit 1) /\
  (main (demo_env false 0 false) (demo_args None) demo_world).1
    = Raise (OSError "rmtree") /\
  log (main (demo_env false 0 true) (demo_args None) demo_world).2
    = log (main (deletion_succeeds (demo_env false 0 true)) (demo_args None)
             demo_world).2.
Proof.
  split; [| split].
  - intros H. destruct (H eq_refl) as [_ Heq]. vm_compute in Heq. discriminate.
  - intros H. destruct (H eq_refl) as [_ Heq]. vm_compute in Heq. discriminate.
  - by vm_compute.
Qed.

(** C1, on the code: with the destination [-], [main] never ends
    normally and standard output receives nothing, whatever the artifact
    holds. *)
Theorem C1_stdout_delivery_raises (E : env) (a : args) (w : world) :
  output a = Some "-" ->
  (exists e, (main E a w).1 = Raise e) /\ stdout (main E a w).2 = stdout w.
Proof.
  intros Ho. split.
  - by apply never_ok_main.
  - by apply keeps_main.
Qed.

Lemma C1_stdout_delivery_raises_witness :
  (main (demo_env true 0 true) (demo_args (Some "-")) demo_world).1 = Raise TypeError /\
  stdout (main (demo_env true 0 true) (demo_args (Some "-")) demo_world).2 = [].
Proof.
  split; [by vm_compute |].
  apply (C1_stdout_delivery_raises (demo_env true 0 true) (demo_args (Some "-"))
           demo_world eq_refl).
Defined.

(** ** The compiler loop, pass by pass *)

Section CompilerLoop.

Lemma outcome_eta (r : result unit * world) : r.1 = Ok tt -> r = (Ok tt, r.2).
Proof. destruct r as [x w]. simpl. by intros ->. Qed.

Lemma pass_run E w :
  pass E w =
    let p := xelatex E commandline (cwd w) (files w) in
    let w1 := set_calls (calls w ++ [Call commandline p.1 p.2]) (set_files p.2 w) in
    if (p.1 =? 0)%Z then (Ok tt, w1)
    else (Raise (SystemExit p.1),
          set_log (log w1 ++ [(ERROR, "xelatex failed with return code "
                                       +:+ Str.of_Z p.1)]) w1).
Proof.
  cbv zeta.
  destruct (xelatex E commandline (cwd w) (files w)) as [st fs] eqn:Hx.
  cbn [fst snd]. unfold pass.
  rewrite (bind_ok (subprocess_call E commandline) _ w st
             (set_calls (calls w ++ [Call commandline st fs]) (set_files fs w))).
  2:{ unfold subprocess_call. by rewrite Hx. }
  destruct (st =? 0)%Z; cbn [negb when_]; [done |].
  erewrite bind_ok by apply emit_error_run. done.
Qed.

(** The calls the loop makes: the first pass always, the second when the
    first returned zero, and never a third; each pass runs the compiler in
    the working directory on the files the pass before it left. *)
Lemma compile_calls E w :
  let p1 := xelatex E commandline (cwd w) (files w) in
  let p2 := xelatex E commandline (cwd w) p1.2 in
  calls (compile E w).2 =
    calls w ++ Call commandline p1.1 p1.2 ::
               (if (p1.1 =? 0)%Z then [Call commandline p2.1 p2.2] else []).
Proof.
  cbv zeta.
  change (compile E w) with ((pass E ;; pass E ;; ret tt) w).
  unfold bind at 1. rewrite (pass_run E w). cbv zeta.
  destruct ((xelatex E commandline (cwd w) (files w)).1 =? 0)%Z; [| done].
  unfold bind. rewrite pass_run. cbv zeta. cbn [cwd files calls set_calls set_files].
  destruct (_ =? 0)%Z; cbn [snd calls set_calls set_log ret];
    by rewrite <- app_assoc.
Qed.

Lemma before_compile_calls E a cwd0 names code :
  keeps calls (before_compile E a cwd0 names code).
Proof.
  unfold before_compile.
  repeat first
    [ apply keeps_stage | apply keeps_assert | apply keeps_write_text
    | apply keeps_logging_debug | apply keeps_bind; [| intros ?] | done ].
Qed.

Lemma before_compile_cwd E a cwd0 names code :
  keeps cwd (before_compile E a cwd0 names code).
Proof.
  unfold before_compile.
  repeat first
    [ apply keeps_stage | apply keeps_assert | apply keeps_write_text
    | apply keeps_logging_debug | apply keeps_bind; [| intros ?] | done ].
Qed.

Lemma after_compile_calls E a cwd0 : keeps calls (after_compile E a cwd0).
Proof.
  unfold after_compile.
  repeat first
    [ apply keeps_deliver | apply keeps_isfile | apply keeps_sys_exit
    | apply keeps_logging_error | apply keeps_when
    | apply keeps_bind; [| intros ?] | done ].
Qed.

(** The calls of a run of [main] that got as far as the compiler, the
    document having been written in state [w3]. *)
Lemma main_compiler_calls E a w sb w3 :
  sandbox_of E sb -> world_ok w -> file a <> [] ->
  before_compile E a (cwd w) (staged_names (file a))
    (buildlatex E (latexoptions E a) (staged_names (file a)))
    (entered E a sb w) = (Ok tt, w3) ->
  calls (main E a w).2 = calls (compile E w3).2 /\
  calls w3 = calls w /\ cwd w3 = sb.
Proof.
  intros Hsb Hw Hf Hb.
  destruct (main_calls E a w sb Hsb Hw Hf) as (-> & _ & _).
  pose proof (before_compile_calls E a (cwd w) (staged_names (file a))
    (buildlatex E (latexoptions E a) (staged_names (file a)))
    (entered E a sb w)) as Hc3.
  pose proof (before_compile_cwd E a (cwd w) (staged_names (file a))
    (buildlatex E (latexoptions E a) (staged_names (file a)))
    (entered E a sb w)) as Hd3.
  rewrite Hb in Hc3, Hd3. cbn [snd] in Hc3, Hd3.
  rewrite entered_calls in Hc3.
  split; [| done].
  unfold suite_run. rewrite pipeline_split, (bind_ok _ _ _ _ _ Hb).
  unfold bind. pose proof (after_compile_calls E a (cwd w)) as Hac.
  destruct (compile E w3) as [[[]|e] w4]; cbn [snd]; [apply Hac | done].
Qed.

End CompilerLoop.

(** C4, as the code has it: a run that ends normally has invoked the
    compiler exactly twice, both passes returning zero; a pass that
    returns a non-zero status is the last one, and the run ends at once
    in [sys.exit] of that status, so that the process exits with the
    status modulo 256, which is the status itself when it lies between 1
    and 255.  The passes are really made: once the document is written,
    the compiler is run with the fixed command line in the sandbox, a
    second time exactly when the first pass returned zero, on the files
    the first pass left, and never a third time. *)
Theorem C4_compiler_invocations (E : env) (a : args) (w : world) (sb : string) :
  sandbox_of E sb -> world_ok w -> rmtree_ok E = true ->
  (exists new,
     calls (main E a w).2 = calls w ++ new /\
     Forall (fun c => argv c = commandline) new /\
     ((main E a w).1 = Ok tt ->
        exists c1 c2, new = [c1; c2] /\ status c1 = 0%Z /\ status c2 = 0%Z) /\
     (forall i c, new !! i = Some c -> status c <> 0%Z ->
        length new = S i /\
        (main E a w).1 = Raise (SystemExit (status c)) /\
        exit_code (main E a w).1 = (status c mod 256)%Z /\
        ((0 < status c < 256)%Z -> exit_code (main E a w).1 = status c))) /\
  (forall w3, file a <> [] ->
     before_compile E a (cwd w) (staged_names (file a))
       (buildlatex E (latexoptions E a) (staged_names (file a)))
       (entered E a sb w) = (Ok tt, w3) ->
     let p1 := xelatex E commandline sb (files w3) in
     let p2 := xelatex E commandline sb p1.2 in
     calls (main E a w).2 =
       calls w ++ Call commandline p1.1 p1.2 ::
                  (if (p1.1 =? 0)%Z then [Call commandline p2.1 p2.2] else [])).
Proof.
  intros Hsb Hw Hrm. split.
  2:{ intros w3 Hf Hb. cbv zeta.
      destruct (main_compiler_calls E a w sb w3 Hsb Hw Hf Hb) as (-> & <- & <-).
      apply compile_calls. }
  assert (Hexit : forall st, (main E a w).1 = Raise (SystemExit st) ->
            (main E a w).1 = Raise (SystemExit st) /\
            exit_code (main E a w).1 = (st mod 256)%Z /\
            ((0 < st < 256)%Z -> exit_code (main E a w).1 = st)).
  { intros st Hr. split; [done |]. rewrite Hr. cbn [exit_code].
    split; [done |]. intros Hst. by apply Z.mod_small; lia. }
  destruct (decide (file a = [])) as [Hf|Hf].
  { destruct (main_no_input E a w Hf) as [Hr Hc].
    exists []. rewrite app_nil_r.
    split; [done |]. split; [constructor |]. split; [by rewrite Hr |].
    intros i c Hi. by destruct i. }
  destruct (main_calls E a w sb Hsb Hw Hf) as (Hmc & _ & _).
  assert (Hres : (main E a w).1 = (suite_run E a sb w).1).
  { by rewrite (main_run E a w sb Hsb Hw Hf), Hrm. }
  rewrite Hmc. unfold suite_run in *.
  destruct (pipeline_cases E a (cwd w) (staged_names (file a))
    (buildlatex E (latexoptions E a) (staged_names (file a)))
    (entered E a sb w)) as (_ & _ & Hcases).
  rewrite entered_calls in Hcases.
  destruct Hcases as [(e & _ & Hr & Hc)|[(pre & c & Hc & Hargv & Hpre & Hlen & Hst & Hr)
    |(c1 & c2 & w4 & _ & Ha1 & Ha2 & H1 & H2 & _ & _ & _ & _ & Hc)]].
  - exists []. rewrite app_nil_r.
    split; [done |]. split; [constructor |]. split; [by rewrite Hres, Hr |].
    intros i c Hi. by destruct i.
  - exists (pre ++ [c]).
    split; [done |]. split; [done |]. split; [by rewrite Hres, Hr |].
    intros i c' Hi Hc'.
    destruct (decide (i < length pre)%nat) as [Hlt|Hge].
    + rewrite lookup_app_l in Hi by done.
      rewrite Forall_lookup in Hpre. by destruct (Hc' (Hpre _ _ Hi)).
    + rewrite lookup_app_r in Hi by lia.
      destruct (i - length pre)%nat as [|n] eqn:Hn; [| done].
      simpl in Hi. injection Hi as <-.
      split; [rewrite length_app; simpl; lia |].
      apply Hexit. by rewrite Hres.
  - exists [c1; c2].
    split; [done |]. split; [by repeat constructor |].
    split; [intros _; by eexists _, _ |].
    intros i c Hi Hc'.
    destruct i as [|[|i]]; simpl in Hi; simplify_eq.
Qed.

Lemma C4_compiler_invocations_witness :
  (exists c1 c2,
     calls (main (demo_env true 0 true) (demo_args None) demo_world).2 = [c1; c2] /\
     status c1 = 0%Z /\ status c2 = 0%Z) /\
  (exists c,
     calls (main (demo_env true 3 false) (demo_args None) demo_world).2 = [c] /\
     status c = 3%Z /\
     (main (demo_env true 3 false) (demo_args None) demo_world).1
       = Raise (SystemExit 3) /\
     exit_code (main (demo_env true 3 false) (demo_args None) demo_world).1 = 3%Z) /\
  (exists c1 c2,
     calls (main (demo_env_rerun 2) (demo_args None) demo_world).2 = [c1; c2] /\
     status c1 = 0%Z /\ status c2 = 2%Z /\
     (main (demo_env_rerun 2) (demo_args None) demo_world).1
       = Raise (SystemExit 2)).
Proof.
  split; [| split].
  - destruct (C4_compiler_invocations (demo_env true 0 true) (demo_args None)
                demo_world "/tmp/tmpq1w2e3")
      as [(new & Hc & _ & Hok & _) _].
    + apply demo_sandbox.
    + apply demo_world_ok.
    + reflexivity.
    + destruct Hok as (c1 & c2 & -> & H1 & H2); [vm_compute; reflexivity |].
      exists c1, c2. split; [exact Hc |]. split; assumption.
  - pose (E := demo_env true 3 false).
    pose (bc := before_compile E (demo_args None) "/home/u"
                  (staged_names ["foo/bar.py"])
                  (buildlatex E (latexoptions E (demo_args None))
                     (staged_names ["foo/bar.py"]))
                  (entered E (demo_args None) "/tmp/tmpq1w2e3" demo_world)).
    pose (p1 := xelatex E commandline "/tmp/tmpq1w2e3" (files bc.2)).
    destruct (C4_compiler_invocations E (demo_args None) demo_world "/tmp/tmpq1w2e3")
      as [(new & Hc & _ & _ & Hfail) Hreach].
    + apply demo_sandbox.
    + apply demo_world_ok.
    + reflexivity.
    + assert (Hb : bc.1 = Ok tt) by (vm_compute; reflexivity).
      specialize (Hreach bc.2 ltac:(discriminate) (outcome_eta bc Hb)).
      cbv zeta in Hreach. fold p1 in Hreach.
      assert (H1 : p1.1 = 3%Z) by (vm_compute; reflexivity).
      rewrite H1 in Hreach.
      change (calls (main E (demo_args None) demo_world).2
              = [Call commandline 3 p1.2]) in Hreach.
      rewrite Hreach in Hc.
      change ([Call commandline 3 p1.2] = new) in Hc. subst new.
      destruct (Hfail 0%nat (Call commandline 3 p1.2) eq_refl)
        as (_ & Hr & _ & He); [discriminate |].
      exists (Call commandline 3 p1.2).
      split; [exact Hreach |]. split; [reflexivity |]. split; [exact Hr |].
      apply He. cbn [status]. lia.
  - pose (E := demo_env_rerun 2).
    pose (bc := before_compile E (demo_args None) "/home/u"
                  (staged_names ["foo/bar.py"])
                  (buildlatex E (latexoptions E (demo_args None))
                     (staged_names ["foo/bar.py"]))
                  (entered E (demo_args None) "/tmp/tmpq1w2e3" demo_world)).
    pose (p1 := xelatex E commandline "/tmp/tmpq1w2e3" (files bc.2)).
    pose (p2 := xelatex E commandline "/tmp/tmpq1w2e3" p1.2).
    destruct (C4_compiler_invocations E (demo_args None) demo_world "/tmp/tmpq1w2e3")
      as [(new & Hc & _ & _ & Hfail) Hreach].
    + by split.
    + apply demo_world_ok.
    + reflexivity.
    + assert (Hb : bc.1 = Ok tt) by (vm_compute; reflexivity).
      specialize (Hreach bc.2 ltac:(discriminate) (outcome_eta bc Hb)).
      cbv zeta in Hreach. fold p1 in Hreach. fold p2 in Hreach.
      assert (H1 : p1.1 = 0%Z) by (vm_compute; reflexivity).
      assert (H2 : p2.1 = 2%Z) by (vm_compute; reflexivity).
      rewrite H1, H2 in Hreach.
      change (calls (main E (demo_args None) demo_world).2
              = [Call commandline 0 p1.2; Call commandline 2 p2.2]) in Hreach.
      rewrite Hreach in Hc.
      change ([Call commandline 0 p1.2; Call commandline 2 p2.2] = new) in Hc.
      subst new.
      destruct (Hfail 1%nat (Call commandline 2 p2.2) eq_refl)
        as (_ & Hr & _); [discriminate |].
      exists (Call commandline 0 p1.2), (Call commandline 2 p2.2).
      split; [exact Hreach |]. split; [reflexivity |]. split; [reflexivity |].
      exact Hr.
Defined.

(** C4 as stated fails for a status outside 0..255: a compiler killed by
    signal 11 makes [subprocess.call] return -11, the run ends in
    [sys.exit(-11)], and the process exits with 245, not with -11. *)
Lemma C4_counterexample :
  map status (calls (main (demo_env true (-11) false) (demo_args None) demo_world).2)
    = [(-11)%Z] /\
  exit_code (main (demo_env true (-11) false) (demo_args None) demo_world).1 = 245%Z /\
  ~ exits_with_compiler_status (demo_env true (-11) false) (demo_args None) demo_world.
Proof.
  split; [vm_compute; reflexivity |]. split; [vm_compute; reflexivity |].
  intros H.
  specialize (H [] (run_call (main (demo_env true (-11) false) (demo_args None)
                                demo_world) 0)).
  assert (Hd : exit_code (main (demo_env true (-11) false) (demo_args None)
                             demo_world).1 = (-11)%Z).
  { apply H; [vm_compute; reflexivity | vm_compute; discriminate]. }
  vm_compute in Hd. discriminate.
Qed.

(** C5: when both passes returned zero and the artifact is not in the
    sandbox, the run exits with status 1 and delivers nothing: standard
    output is untouched, and the files after the run are those the second
    pass left, less the sandbox. *)
Theorem C5_missing_artifact (E : env) (a : args) (w : world) (sb : string)
    (c1 c2 : call) :
  sandbox_of E sb -> world_ok w -> rmtree_ok E = true ->
  calls (main E a w).2 = calls w ++ [c1; c2] ->
  status c1 = 0%Z -> status c2 = 0%Z ->
  fs_after c2 !! Path.join sb pdffile = None ->
  (main E a w).1 = Raise (SystemExit 1) /\
  stdout (main E a w).2 = stdout w /\
  (forall k, files (main E a w).2 !! k
             = if Path.under sb k then None else fs_after c2 !! k) /\
  (ERROR, "xelatex completed but mintscript.pdf not found in output")
    ∈ log (main E a w).2.
Proof.
  intros Hsb Hw Hrm Hcalls H1 H2 Hnone.
  destruct (run_both_passes E a w sb c1 c2 Hsb Hw Hcalls H1 H2)
    as (Hf & w4 & Hfs & Hcwd & Hout & Hrun).
  rewrite (main_run E a w sb Hsb Hw Hf), Hrm, Hrun.
  rewrite after_compile_missing by by rewrite Hcwd, Hfs.
  cbn [fst snd]. repeat split; try done.
  - intros k. rewrite removed_lookup. cbn [files set_cwd set_log].
    by rewrite Hfs.
  - unfold removed. cbn [log set_dirs set_files set_cwd set_log].
    apply elem_of_app. right. by apply list_elem_of_singleton.
Qed.

Lemma C5_missing_artifact_witness :
  (main (demo_env true 0 false) (demo_args None) demo_world).1
    = Raise (SystemExit 1) /\
  stdout (main (demo_env true 0 false) (demo_args None) demo_world).2 = [].
Proof.
  pose (r := main (demo_env true 0 false) (demo_args None) demo_world).
  destruct (C5_missing_artifact (demo_env true 0 false) (demo_args None)
    demo_world "/tmp/tmpq1w2e3" (run_call r 0) (run_call r 1)) as (H1 & H2 & _).
  - apply demo_sandbox.
  - apply demo_world_ok.
  - reflexivity.
  - by vm_compute.
  - by vm_compute.
  - by vm_compute.
  - by vm_compute.
  - by split.
Defined.

(** C8: with no destination configured, a run whose two passes returned
    zero and left the artifact ends normally, and the artifact is at the
    first input's path with [.pdf] for its extension, joined to the
    working directory the run started in; for [foo/bar.py] that path is
    [foo/bar.pdf]. *)
Theorem C8_default_destination (E : env) (a : args) (w : world) (sb : string)
    (c1 c2 : call) (b : bytes) :
  sandbox_of E sb -> world_ok w -> rmtree_ok E = true ->
  inputs_outside sb w a ->
  output a = None ->
  calls (main E a w).2 = calls w ++ [c1; c2] ->
  status c1 = 0%Z -> status c2 = 0%Z ->
  fs_after c2 !! Path.join sb pdffile = Some b ->
  (Path.splitext "foo/bar.py").1 +:+ ".pdf" = "foo/bar.pdf" /\
  exists f0, file a !! 0%nat = Some f0 /\
    (main E a w).1 = Ok tt /\
    files (main E a w).2 !! Path.join (cwd w) ((Path.splitext f0).1 +:+ ".pdf")
      = Some b /\
    Path.under sb (Path.join (cwd w) ((Path.splitext f0).1 +:+ ".pdf")) = false.
Proof.
  intros Hsb Hw Hrm Hout Ho Hcalls H1 H2 Hb. split; [reflexivity |].
  destruct (default_delivery E a w sb c1 c2 b) as (f0 & Hf0 & Hr & Hfile);
    try done.
  { by rewrite Ho. }
  exists f0. repeat split; try done.
  apply derived_not_under; [apply isabs_nonempty, Hsb |].
  unfold inputs_outside in Hout. rewrite Forall_lookup in Hout. eauto.
Qed.

Lemma C8_default_destination_witness :
  files (main (demo_env true 0 true) (demo_args None) demo_world).2
    !! "/home/u/foo/bar.pdf" = Some demo_pdf.
Proof.
  pose (r := main (demo_env true 0 true) (demo_args None) demo_world).
  destruct (C8_default_destination (demo_env true 0 true) (demo_args None)
    demo_world "/tmp/tmpq1w2e3" (run_call r 0) (run_call r 1) demo_pdf)
    as (_ & f0 & Hf0 & _ & H & _).
  - apply demo_sandbox.
  - apply demo_world_ok.
  - reflexivity.
  - by repeat constructor.
  - reflexivity.
  - by vm_compute.
  - by vm_compute.
  - by vm_compute.
  - by vm_compute.
  - injection Hf0 as <-. exact H.
Defined.

(** C10: an empty or absent destination counts as none: a run whose two
    passes returned zero and left the artifact ends normally with the
    artifact at the path derived from the first input. *)
Theorem C10_falsy_destination (E : env) (a : args) (w : world) (sb : string)
    (c1 c2 : call) (b : bytes) :
  sandbox_of E sb -> world_ok w -> rmtree_ok E = true ->
  inputs_outside sb w a ->
  output a = Some "" \/ output a = None ->
  calls (main E a w).2 = calls w ++ [c1; c2] ->
  status c1 = 0%Z -> status c2 = 0%Z ->
  fs_after c2 !! Path.join sb pdffile = Some b ->
  exists f0, file a !! 0%nat = Some f0 /\
    (main E a w).1 = Ok tt /\
    files (main E a w).2 !! Path.join (cwd w) ((Path.splitext f0).1 +:+ ".pdf")
      = Some b.
Proof.
  intros Hsb Hw Hrm Hout Ho Hcalls H1 H2 Hb.
  apply (default_delivery E a w sb c1 c2 b); try done.
  by destruct Ho as [-> | ->].
Qed.

Lemma C10_falsy_destination_witness :
  exists f0, file (demo_args (Some "")) !! 0%nat = Some f0 /\
    (main (demo_env true 0 true) (demo_args (Some "")) demo_world).1 = Ok tt /\
    files (main (demo_env true 0 true) (demo_args (Some "")) demo_world).2
      !! Path.join (cwd demo_world) ((Path.splitext f0).1 +:+ ".pdf")
      = Some demo_pdf.
Proof.
  pose (r := main (demo_env true 0 true) (demo_args (Some "")) demo_world).
  apply (C10_falsy_destination (demo_env true 0 true) (demo_args (Some ""))
    demo_world "/tmp/tmpq1w2e3" (run_call r 0) (run_call r 1) demo_pdf).
  - apply demo_sandbox.
  - apply demo_world_ok.
  - reflexivity.
  - by repeat constructor.
  - by left.
  - by vm_compute.
  - by vm_compute.
  - by vm_compute.
  - by vm_compute.
Defined.

Section Staging.

Variables (cwd0 d : string).
Hypothesis cwd0_abs : Path.isabs cwd0 = true.

Lemma under_differ k1 k2 :
  Path.under d k1 = false -> Path.under d k2 = true -> k1 <> k2.
Proof. congruence. Qed.

(** One iteration on an input that exists outside [d]. *)
Lemma stage_one_ok f n b w :
  cwd w = d -> Path.isabs n = false ->
  Path.under d (Path.join cwd0 f) = false ->
  files w !! Path.join cwd0 f = Some b ->
  exists w', stage_one cwd0 (f, n) w = (Ok tt, w') /\
    files w' = <[Path.join d n := b]> (files w) /\
    cwd w' = d /\ calls w' = calls w.
Proof.
  intros Hd Hn Hu Hb.
  assert (Hj : Path.join (cwd w) (Path.join cwd0 f) = Path.join cwd0 f).
  { apply join_absolute. by apply join_isabs. }
  set (w1 := set_files (<[Path.join d n := b]> (files w)) w).
  set (msg := "Copied " +:+ Path.join cwd0 f +:+ " to " +:+ n).
  exists (logging_debug msg w1).2.
  split; [| by rewrite !(keeps_logging_debug _ msg) by done].
  unfold stage_one.
  rewrite (bind_ok (isfile _) _ w true w).
  2:{ unfold isfile. rewrite Hj, Hb. by rewrite bool_decide_eq_true_2. }
  cbn [negb when_]. rewrite (bind_ok (ret ()) _ w tt w) by done.
  rewrite (bind_ok (copyfile _ _) _ w tt w1); [done |].
  unfold copyfile. rewrite Hj, Hd, Hb.
  destruct (String.eqb_spec (Path.join cwd0 f) (Path.join d n)) as [Heq|_];
    [| done].
  rewrite Heq, under_join in Hu; done.
Qed.

(** One iteration on an input that does not exist. *)
Lemma stage_one_missing f n w :
  files w !! Path.join cwd0 f = None ->
  stage_one cwd0 (f, n) w =
    (Raise (SystemExit 1),
     set_log (log w ++ [(ERROR, "Cannot read file " +:+ Path.join cwd0 f)]) w).
Proof.
  intros Hb. unfold stage_one.
  rewrite (bind_ok (isfile _) _ w false w).
  2:{ unfold isfile.
      rewrite (join_absolute (cwd w)) by by apply join_isabs.
      rewrite Hb. by rewrite bool_decide_eq_false_2 by by intros [? ?]. }
  cbn [negb when_]. erewrite bind_raise; [reflexivity |].
  erewrite bind_ok by apply emit_error_run. reflexivity.
Qed.

Lemma stage_cons f fs n ns w :
  stage cwd0 (f :: fs) (n :: ns) w
  = (stage_one cwd0 (f, n) ;; stage cwd0 fs ns) w.
Proof. reflexivity. Qed.

(** Staging inputs that all exist: every input is copied to its name
    below [d], and nothing else changes. *)
Lemma stage_ok inputs : forall names w,
  cwd w = d -> length names = length inputs ->
  Forall (fun n => Path.isabs n = false) names -> NoDup names ->
  Forall (fun f => Path.under d (Path.join cwd0 f) = false /\
                   is_Some (files w !! Path.join cwd0 f)) inputs ->
  exists w', stage cwd0 inputs names w = (Ok tt, w') /\ cwd w' = d /\
    (forall i f n, inputs !! i = Some f -> names !! i = Some n ->
       files w' !! Path.join d n = files w !! Path.join cwd0 f) /\
    (forall k, (forall n, n ∈ names -> k <> Path.join d n) ->
       files w' !! k = files w !! k).
Proof.
  induction inputs as [|f fs IH]; intros names w Hd Hlen Hrel Hnd Hin.
  - destruct names; [| done]. exists w. repeat split; try done.
  - destruct names as [|n ns]; [done |].
    apply Forall_cons in Hrel as [Hn Hrel].
    apply NoDup_cons in Hnd as [Hnn Hnd].
    apply Forall_cons in Hin as [[Hu [b Hb]] Hin].
    destruct (stage_one_ok f n b w Hd Hn Hu Hb) as (w1 & Hrun & Hfs & Hd1 & _).
    assert (Hkeep : forall f', Path.under d (Path.join cwd0 f') = false ->
              files w1 !! Path.join cwd0 f' = files w !! Path.join cwd0 f').
    { intros f' Hu'. rewrite Hfs. apply lookup_insert_ne.
      apply not_eq_sym, under_differ; [done | by apply under_join]. }
    destruct (IH ns w1) as (w' & Hrun' & Hd' & Hcopy & Hframe); try done.
    { by injection Hlen. }
    { eapply Forall_impl; [exact Hin |]. intros f' [Hu' Hs].
      split; [done |]. by rewrite Hkeep. }
    exists w'. split; [| split; [done | split]].
    + rewrite stage_cons, (bind_ok _ _ _ _ _ Hrun). done.
    + intros i f' n' Hi Hn'. destruct i as [|i]; simpl in Hi, Hn'.
      * simplify_eq. rewrite Hframe.
        -- rewrite Hfs, Hb. apply lookup_insert_eq.
        -- intros m Hm Heq. apply join_inj in Heq; [| done |].
           ++ by subst.
           ++ rewrite Forall_forall in Hrel. auto.
      * rewrite (Hcopy i f' n' Hi Hn'). apply Hkeep.
        rewrite Forall_lookup in Hin. by destruct (Hin i f' Hi).
    + intros k Hk. rewrite Hframe.
      * rewrite Hfs. apply lookup_insert_ne, not_eq_sym, Hk. by left.
      * intros n' Hn'. apply Hk. by right.
Qed.

(** Staging with an input that does not exist: the loop stops at such
    an input with exit status 1, having named it. *)
Lemma stage_missing inputs : forall names w,
  cwd w = d -> length names = length inputs ->
  Forall (fun n => Path.isabs n = false) names ->
  Forall (fun f => Path.under d (Path.join cwd0 f) = false) inputs ->
  Exists (fun f => files w !! Path.join cwd0 f = None) inputs ->
  exists f w', f ∈ inputs /\ files w !! Path.join cwd0 f = None /\
    stage cwd0 inputs names w = (Raise (SystemExit 1), w') /\
    calls w' = calls w /\
    (ERROR, "Cannot read file " +:+ Path.join cwd0 f) ∈ log w'.
Proof.
  induction inputs as [|f fs IH]; intros names w Hd Hlen Hrel Hout Hex.
  - by apply Exists_nil in Hex.
  - destruct names as [|n ns]; [done |].
    apply Forall_cons in Hrel as [Hn Hrel].
    apply Forall_cons in Hout as [Hu Hout].
    destruct (files w !! Path.join cwd0 f) as [b|] eqn:Hb.
    + destruct (stage_one_ok f n b w Hd Hn Hu Hb) as (w1 & Hrun & Hfs & Hd1 & Hc1).
      assert (Hkeep : forall f', Path.under d (Path.join cwd0 f') = false ->
                files w1 !! Path.join cwd0 f' = files w !! Path.join cwd0 f').
      { intros f' Hu'. rewrite Hfs. apply lookup_insert_ne.
        apply not_eq_sym, under_differ; [done | by apply under_join]. }
      apply Exists_cons in Hex as [Hex|Hex]; [congruence |].
      destruct (IH ns w1) as (f' & w' & Hf' & Hnone & Hrun' & Hc' & Hlog);
        try done.
      { by injection Hlen. }
      { rewrite Exists_exists in Hex. destruct Hex as (g & Hg & Hgn).
        apply Exists_exists. exists g. split; [done |].
        rewrite Hkeep; [done |]. rewrite Forall_forall in Hout. auto. }
      exists f', w'. split; [by right |]. split.
      { rewrite <- Hkeep; [done |]. rewrite Forall_forall in Hout. auto. }
      split; [| split; [congruence | done]].
      rewrite stage_cons, (bind_ok _ _ _ _ _ Hrun). done.
    + eexists f, _. split; [by left |]. split; [done |]. split.
      { rewrite stage_cons.
        apply bind_raise, stage_one_missing. done. }
      split; [done |].
      cbn [log set_log]. apply elem_of_app. right.
      by apply list_elem_of_singleton.
Qed.

End Staging.

(** C7: staging a list of inputs that all exist, in an empty sandbox (the
    working directory), succeeds and leaves exactly one file per input
    below the sandbox: the [i]-th is named [source], [i], then the
    extension of the [i]-th input, and holds that input's bytes. *)
Theorem C7_staging (cwd0 : string) (inputs : list string) (w : world) :
  Path.isabs cwd0 = true ->
  (forall k, Path.under (cwd w) k = true -> files w !! k = None) ->
  Forall (fun f => is_Some (files w !! Path.join cwd0 f)) inputs ->
  exists w',
    stage cwd0 inputs (staged_names inputs) w = (Ok tt, w') /\
    length (staged_names inputs) = length inputs /\
    NoDup (Path.join (cwd w) <$> staged_names inputs) /\
    (forall i f, inputs !! i = Some f ->
       staged_names inputs !! i
         = Some ("source" +:+ Str.of_nat i +:+ (Path.splitext f).2) /\
       files w' !! Path.join (cwd w)
                     ("source" +:+ Str.of_nat i +:+ (Path.splitext f).2)
         = files w !! Path.join cwd0 f) /\
    (forall k, Path.under (cwd w) k = true ->
       (is_Some (files w' !! k) <-> k ∈ Path.join (cwd w) <$> staged_names inputs)).
Proof.
  intros Habs Hempty Hin.
  assert (Hrel : Forall (fun n => Path.isabs n = false) (staged_names inputs)).
  { apply Forall_forall. intros n (i & f & _ & ->)%staged_names_elem.
    apply staged_name_relative. }
  destruct (stage_ok cwd0 (cwd w) Habs inputs (staged_names inputs) w)
    as (w' & Hrun & _ & Hcopy & Hframe); try done.
  { apply staged_names_length. }
  { apply staged_names_NoDup. }
  { eapply Forall_impl; [exact Hin |]. intros f Hs. split; [| done].
    destruct (Path.under (cwd w) (Path.join cwd0 f)) eqn:Hu; [| done].
    simpl in Hs. rewrite (Hempty _ Hu) in Hs. by destruct Hs. }
  exists w'. split; [done |]. split; [apply staged_names_length |].
  split; [| split].
  - apply NoDup_fmap_2_strong; [| apply staged_names_NoDup].
    intros n1 n2 H1 H2. rewrite Forall_forall in Hrel.
    apply join_inj; auto.
  - intros i f Hf.
    assert (Hn : staged_names inputs !! i = Some (staged_name i f)).
    { by rewrite staged_names_lookup, Hf. }
    split; [exact Hn |]. apply (Hcopy i f _ Hf Hn).
  - intros k Hk. split.
    + intros Hs.
      destruct (decide (k ∈ Path.join (cwd w) <$> staged_names inputs)) as [|Hnot];
        [done |].
      rewrite Hframe, (Hempty k Hk) in Hs; [by destruct Hs |].
      intros n Hn ->. apply Hnot. by apply list_elem_of_fmap_2.
    + intros (n & -> & Hn)%list_elem_of_fmap.
      apply list_elem_of_lookup in Hn as [i Hi].
      pose proof Hi as Hi'. rewrite staged_names_lookup in Hi'.
      destruct (inputs !! i) as [f|] eqn:Hf; [| done].
      rewrite (Hcopy i f n Hf Hi).
      rewrite Forall_lookup in Hin. eauto.
Qed.

Lemma C7_staging_witness :
  exists w',
    stage "/home/u" ["foo/bar.py"] (staged_names ["foo/bar.py"]) demo_inside
      = (Ok tt, w') /\
    files w' !! "/tmp/tmpq1w2e3/source0.py" = Some [Byte.x61].
Proof.
  destruct (C7_staging "/home/u" ["foo/bar.py"] demo_inside)
    as (w' & Hrun & _ & _ & Hcopy & _).
  - reflexivity.
  - intros k Hk. apply lookup_singleton_None. intros <-. by vm_compute in Hk.
  - repeat constructor. by eexists.
  - exists w'. split; [exact Hrun |].
    destruct (Hcopy 0%nat "foo/bar.py" eq_refl) as [_ H]. exact H.
Defined.

(** C6: when an input names no regular file, the run exits with status
    1, never invokes the compiler, and has logged an error that names a
    missing input path. *)
Theorem C6_missing_input (E : env) (a : args) (w : world) (sb f : string) :
  sandbox_of E sb -> world_ok w -> rmtree_ok E = true ->
  inputs_outside sb w a ->
  f ∈ file a -> files w !! Path.join (cwd w) f = None ->
  (main E a w).1 = Raise (SystemExit 1) /\
  calls (main E a w).2 = calls w /\
  exists f', f' ∈ file a /\ files w !! Path.join (cwd w) f' = None /\
    (ERROR, "Cannot read file " +:+ Path.join (cwd w) f') ∈ log (main E a w).2.
Proof.
  intros Hsb Hw Hrm Hout Hf Hnone.
  assert (Hfile : file a <> []) by (intros Hnil; rewrite Hnil in Hf; by inversion Hf).
  destruct (main_calls E a w sb Hsb Hw Hfile) as (Hmc & _ & Hml).
  assert (Hres : (main E a w).1 = (suite_run E a sb w).1).
  { by rewrite (main_run E a w sb Hsb Hw Hfile), Hrm. }
  rewrite Hres, Hmc, Hml.
  destruct (stage_missing (cwd w) sb (proj1 Hw) (file a) (staged_names (file a))
              (entered E a sb w)) as (f' & w' & Hf' & Hn' & Hrun & Hc & Hlog).
  - reflexivity.
  - apply staged_names_length.
  - apply Forall_forall. intros n (i & g & _ & ->)%staged_names_elem.
    apply staged_name_relative.
  - exact Hout.
  - apply Exists_exists. exists f. by rewrite entered_files.
  - rewrite entered_files in Hn'. rewrite entered_calls in Hc.
    unfold suite_run, pipeline.
    rewrite (bind_raise _ _ _ _ _ Hrun). cbn [fst snd].
    split; [done |]. split; [done |]. by exists f'.
Qed.

Lemma C6_missing_input_witness :
  (main (demo_env true 0 true) (Args ["foo/bar.py"; "nope.c"] None false)
        demo_world).1 = Raise (SystemExit 1).
Proof.
  refine (proj1 (C6_missing_input (demo_env true 0 true)
    (Args ["foo/bar.py"; "nope.c"] None false) demo_world
    "/tmp/tmpq1w2e3" "nope.c" _ _ _ _ _ _)).
  - apply demo_sandbox.
  - apply demo_world_ok.
  - reflexivity.
  - by repeat constructor.
  - apply list_elem_of_In. simpl. auto.
  - by vm_compute.
Defined.

(** * Further properties of the code *)

(** ** [cd] and [tempdir] with any suite *)

Section ContextManagers.

Lemma chdir_ok d w :
  Path.join (cwd w) d ∈ dirs w ->
  chdir d w = (Ok tt, set_cwd (Path.join (cwd w) d) w).
Proof. intros H. unfold chdir. by rewrite decide_True. Qed.

Lemma chdir_missing d w :
  Path.join (cwd w) d ∉ dirs w ->
  chdir d w = (Raise (FileNotFoundError (Path.join (cwd w) d)), w).
Proof. intros H. unfold chdir. by rewrite decide_False. Qed.

Lemma cd_enter {A} E newdir cleanup (body : M A) w :
  Path.join (cwd w) (expanduser E newdir) ∈ dirs w ->
  cd E newdir cleanup body w =
    try_finally body (chdir (cwd w) ;; cleanup)
      (set_cwd (Path.join (cwd w) (expanduser E newdir)) w).
Proof.
  intros H. unfold cd.
  rewrite (bind_ok getcwd _ w (cwd w) w) by done.
  by rewrite (bind_ok _ _ _ _ _ (chdir_ok _ _ H)).
Qed.

End ContextManagers.

(** [cd] on a directory that does not exist raises before its suite
    starts: the suite does not run, [cleanup] is not called and the state
    is unchanged. *)
Theorem cd_missing_target {A} (E : env) (newdir : string) (cleanup : M unit)
    (body : M A) (w : world) :
  Path.join (cwd w) (expanduser E newdir) ∉ dirs w ->
  cd E newdir cleanup body w =
    (Raise (FileNotFoundError (Path.join (cwd w) (expanduser E newdir))), w).
Proof.
  intros H. unfold cd.
  rewrite (bind_ok getcwd _ w (cwd w) w) by done.
  by rewrite (bind_raise _ _ _ _ _ (chdir_missing _ _ H)).
Qed.

Lemma cd_missing_target_witness :
  cd (demo_env true 0 true) "/nowhere" (rmtree (demo_env true 0 true) "/home/u")
     (write_text (demo_env true 0 true) "x" "y") demo_world
  = (Raise (FileNotFoundError "/nowhere"), demo_world).
Proof.
  apply (cd_missing_target (demo_env true 0 true) "/nowhere" _ _ demo_world).
  by vm_compute.
Defined.

(** [cd] with its default [cleanup]: whatever the suite does, the working
    directory included, and however it ends, the run ends as the suite did,
    in the state the suite left, back in the directory it started in
    (that directory still existing). *)
Theorem cd_restores {A} (E : env) (newdir : string) (body : M A) (w : world) :
  Path.isabs (cwd w) = true ->
  Path.join (cwd w) (expanduser E newdir) ∈ dirs w ->
  cwd w ∈ dirs (body (set_cwd (Path.join (cwd w) (expanduser E newdir)) w)).2 ->
  cd E newdir (ret tt) body w =
    ((body (set_cwd (Path.join (cwd w) (expanduser E newdir)) w)).1,
     set_cwd (cwd w)
       (body (set_cwd (Path.join (cwd w) (expanduser E newdir)) w)).2).
Proof.
  intros Habs Hin Hback. rewrite (cd_enter _ _ _ _ _ Hin).
  unfold try_finally.
  destruct (body _) as [r w1]. simpl in Hback |- *.
  rewrite (bind_ok (chdir _) _ w1 tt (set_cwd (cwd w) w1)); [done |].
  rewrite <- (join_absolute (cwd w1) (cwd w) Habs) at 2.
  apply chdir_ok. by rewrite join_absolute.
Qed.

Lemma cd_restores_witness :
  cwd (cd (demo_env true 0 true) "foo" (ret tt) (chdir "/tmp")
         (World "/home/u" {["/home/u"; "/home/u/foo"; "/tmp"]} ∅ [] WARNING [] [])).2
  = "/home/u".
Proof.
  rewrite (cd_restores (demo_env true 0 true) "foo" (chdir "/tmp")
             (World "/home/u" {["/home/u"; "/home/u/foo"; "/tmp"]} ∅ [] WARNING [] [])).
  - reflexivity.
  - reflexivity.
  - by vm_compute.
  - by vm_compute.
Defined.

(** When the directory [cd] started in is gone at the end of the suite,
    going back fails and [cleanup] is never called: the run ends in that
    error, in the state the suite left. *)
Theorem cd_cleanup_skipped {A} (E : env) (newdir : string) (cleanup : M unit)
    (body : M A) (w : world) :
  Path.isabs (cwd w) = true ->
  Path.join (cwd w) (expanduser E newdir) ∈ dirs w ->
  cwd w ∉ dirs (body (set_cwd (Path.join (cwd w) (expanduser E newdir)) w)).2 ->
  cd E newdir cleanup body w =
    (Raise (FileNotFoundError (cwd w)),
     (body (set_cwd (Path.join (cwd w) (expanduser E newdir)) w)).2).
Proof.
  intros Habs Hin Hgone. rewrite (cd_enter _ _ _ _ _ Hin).
  unfold try_finally.
  destruct (body _) as [r w1]. simpl in Hgone |- *.
  rewrite (bind_raise (chdir _) _ w1 (FileNotFoundError (cwd w)) w1); [done |].
  rewrite <- (join_absolute (cwd w1) (cwd w) Habs) at 2.
  apply chdir_missing. by rewrite join_absolute.
Qed.

Lemma cd_cleanup_skipped_witness :
  cd (demo_env true 0 true) "/tmp" (write_text (demo_env true 0 true) "mark" "")
     (rmtree (demo_env true 0 true) "/home")
     (World "/home/u" {["/home/u"; "/tmp"]} ∅ [] WARNING [] [])
  = (Raise (FileNotFoundError "/home/u"),
     World "/tmp" {["/tmp"]} ∅ [] WARNING [] []).
Proof.
  rewrite (cd_cleanup_skipped (demo_env true 0 true) "/tmp" _
             (rmtree (demo_env true 0 true) "/home")
             (World "/home/u" {["/home/u"; "/tmp"]} ∅ [] WARNING [] [])).
  - by vm_compute.
  - reflexivity.
  - by vm_compute.
  - by vm_compute.
Defined.

(** [tempdir] around any suite that leaves the caller's directory in
    place: the suite runs inside the new directory; afterwards the run
    ends as the suite did, back in the caller's directory, the new
    directory and all below it are gone, and every other file is as the
    suite left it. *)
Theorem tempdir_releases {A} (E : env) (body : string -> M A) (w : world)
    (sb : string) :
  sandbox_of E sb -> Path.isabs (cwd w) = true ->
  cwd w ∈ dirs (body sb (inside sb w)).2 ->
  rmtree_ok E = true ->
  cwd (inside sb w) = sb /\
  (tempdir E body w).1 = (body sb (inside sb w)).1 /\
  cwd (tempdir E body w).2 = cwd w /\
  (sb ∉ dirs (tempdir E body w).2) /\
  (forall k, files (tempdir E body w).2 !! k =
     if Path.under sb k then None else files (body sb (inside sb w)).2 !! k).
Proof.
  intros [Hmk Hsb] Habs Hback Hrm. split; [done |].
  assert (Hrun : tempdir E body w =
            ((body sb (inside sb w)).1,
             removed sb (set_cwd (cwd w) (body sb (inside sb w)).2))).
  { unfold tempdir.
    rewrite (bind_ok (mkdtemp E) _ w sb (set_dirs ({[sb]} ∪ dirs w) w))
      by (unfold mkdtemp; by rewrite Hmk).
    rewrite cd_enter; cbn [cwd dirs set_dirs];
      rewrite (expanduser_absolute _ _ Hsb), (join_absolute _ _ Hsb);
      [| by apply elem_of_union_l, elem_of_singleton].
    fold (inside sb w). unfold try_finally.
    destruct (body sb (inside sb w)) as [r w1]. simpl in Hback |- *.
    rewrite (bind_ok (chdir _) _ w1 tt (set_cwd (cwd w) w1)).
    2:{ rewrite <- (join_absolute (cwd w1) (cwd w) Habs) at 2.
        apply chdir_ok. by rewrite join_absolute. }
    unfold rmtree. by rewrite Hrm. }
  rewrite Hrun. cbn [fst snd]. split; [done |]. split; [done |]. split.
  - rewrite removed_dirs. by intros (_ & Hne & _).
  - intros k. by rewrite removed_lookup.
Qed.

Lemma tempdir_releases_witness :
  cwd (tempdir (demo_env true 0 true)
         (fun d => write_text (demo_env true 0 true) "note" d) demo_world).2
  = "/home/u".
Proof.
  destruct (tempdir_releases (demo_env true 0 true)
    (fun d => write_text (demo_env true 0 true) "note" d) demo_world
    "/tmp/tmpq1w2e3") as (_ & _ & H & _).
  - apply demo_sandbox.
  - reflexivity.
  - by vm_compute.
  - reflexivity.
  - exact H.
Defined.

(** ** Runs of [main] that stop before the sandbox *)

Section BeforeTheSandbox.

Lemma main_prelude E a w :
  file a <> [] ->
  main E a w =
    tempdir E (fun _ => pipeline E a (cwd w) (staged_names (file a))
                 (buildlatex E (latexoptions E a) (staged_names (file a))))
      (prelude E a w).
Proof.
  intros Hfile.
  assert (Hlen : (length (file a) <? 1)%nat = false).
  { destruct (file a); [done | reflexivity]. }
  unfold main. rewrite Hlen.
  erewrite bind_ok by reflexivity.
  erewrite bind_ok by reflexivity.
  rewrite (bind_ok (logging_debug _) _ _ tt (prelude E a w)) by reflexivity.
  rewrite (bind_ok getcwd _ _ (cwd w) (prelude E a w))
    by (unfold getcwd; by rewrite (prelude_frame cwd)).
  reflexivity.
Qed.

End BeforeTheSandbox.

(** Without an input file [main] exits with status 1 at once: the error
    is logged whatever the [quiet] flag says, and nothing else of the state
    changes; no directory is created and no compiler runs. *)
Theorem main_without_input (E : env) (a : args) (w : world) :
  file a = [] ->
  main E a w =
    (Raise (SystemExit 1),
     set_log (log w ++ [(ERROR, "stdin entry is not yet supported")]) w).
Proof.
  intros Hf. unfold main. rewrite Hf.
  erewrite bind_raise; [reflexivity |].
  cbn [length Nat.ltb Nat.leb when_].
  erewrite bind_ok by apply emit_error_run. reflexivity.
Qed.

Lemma main_without_input_witness :
  main (demo_env true 0 true) (Args [] (Some "out.pdf") true) demo_world =
    (Raise (SystemExit 1),
     set_log [(ERROR, "stdin entry is not yet supported")] demo_world).
Proof.
  apply (main_without_input (demo_env true 0 true)
           (Args [] (Some "out.pdf") true) demo_world eq_refl).
Defined.

(** When [mkdtemp] fails, [main] ends in that error before anything is
    staged: working directory, directories, files, standard output and
    compiler history are as before. *)
Theorem main_mkdtemp_fails (E : env) (a : args) (w : world) :
  file a <> [] -> mkdtemp_result E = None ->
  (main E a w).1 = Raise (OSError "mkdtemp") /\
  cwd (main E a w).2 = cwd w /\ dirs (main E a w).2 = dirs w /\
  files (main E a w).2 = files w /\ stdout (main E a w).2 = stdout w /\
  calls (main E a w).2 = calls w.
Proof.
  intros Hf Hmk. rewrite (main_prelude E a w Hf). unfold tempdir.
  rewrite (bind_raise (mkdtemp E) _ _ (OSError "mkdtemp") (prelude E a w))
    by (unfold mkdtemp; by rewrite Hmk).
  cbn [fst snd]. by rewrite !prelude_frame.
Qed.

Lemma main_mkdtemp_fails_witness :
  (main demo_env_no_tmp (demo_args None) demo_world).1 = Raise (OSError "mkdtemp") /\
  files (main demo_env_no_tmp (demo_args None) demo_world).2 = files demo_world.
Proof.
  destruct (main_mkdtemp_fails demo_env_no_tmp (demo_args None) demo_world)
    as (H1 & _ & _ & H2 & _).
  - discriminate.
  - reflexivity.
  - by split.
Defined.

(** ** The [quiet] flag *)

Section Quiet.

Lemma quietly_of_keeps {A} (m : M A) :
  keeps log m -> keeps loglevel m -> quietly m.
Proof.
  intros Hl Hv w Hw. split; [by rewrite Hv |].
  exists []. rewrite app_nil_r. split; [apply Hl | constructor].
Qed.

Lemma quietly_ret {A} (x : A) : quietly (ret x).
Proof. apply quietly_of_keeps; apply keeps_ret. Qed.

Lemma quietly_raise {A} e : quietly (@raise A e).
Proof. apply quietly_of_keeps; apply keeps_raise. Qed.

Lemma quietly_bind {A B} (m : M A) (k : A -> M B) :
  quietly m -> (forall x, quietly (k x)) -> quietly (bind m k).
Proof.
  intros Hm Hk w Hw. unfold bind.
  destruct (Hm w Hw) as (Hv1 & n1 & Hl1 & Hn1).
  destruct (m w) as [[x|e] w1]; simpl in *; [| eauto].
  destruct (Hk x w1 Hv1) as (Hv2 & n2 & Hl2 & Hn2).
  split; [done |]. exists (n1 ++ n2).
  rewrite Hl2, Hl1, app_assoc. split; [done | by apply Forall_app].
Qed.

Lemma quietly_when b m : quietly m -> quietly (when_ b m).
Proof. destruct b; [done | intros _; apply quietly_ret]. Qed.

Lemma quietly_for {A} (l : list A) body :
  (forall x, quietly (body x)) -> quietly (for_ l body).
Proof.
  intros Hb. induction l as [|x l IH]; simpl; [apply quietly_ret |].
  apply quietly_bind; auto.
Qed.

Lemma quietly_try_finally {A} (body : M A) fin :
  quietly body -> quietly fin -> quietly (try_finally body fin).
Proof.
  intros Hb Hf w Hw. unfold try_finally.
  destruct (Hb w Hw) as (Hv1 & n1 & Hl1 & Hn1).
  destruct (body w) as [r w1]. simpl in *.
  destruct (Hf w1 Hv1) as (Hv2 & n2 & Hl2 & Hn2).
  destruct (fin w1) as [[[]|e] w2]; simpl in *;
    (split; [done |]; exists (n1 ++ n2);
     rewrite Hl2, Hl1, app_assoc; split; [done | by apply Forall_app]).
Qed.

Lemma quietly_emit lvl msg : quietly (emit lvl msg).
Proof.
  intros w Hw. unfold emit. cbn [snd]. rewrite Hw.
  destruct lvl; cbn [levelno Z.leb Z.compare Pos.compare Pos.compare_cont].
  - split; [done |]. exists []. by rewrite app_nil_r.
  - split; [done |]. exists []. by rewrite app_nil_r.
  - split; [done |]. exists [(ERROR, msg)]. split; [done |]. by repeat constructor.
Qed.

Lemma quietly_stage cwd0 inputs names : quietly (stage cwd0 inputs names).
Proof.
  apply quietly_for. intros [o n]. unfold stage_one.
  repeat first
    [ apply quietly_emit | apply quietly_raise | apply quietly_when
    | apply quietly_of_keeps; [by apply keeps_isfile | by apply keeps_isfile]
    | apply quietly_of_keeps; [by apply keeps_copyfile | by apply keeps_copyfile]
    | apply quietly_bind; [| intros ?] ].
Qed.

Lemma quietly_compile E : quietly (compile E).
Proof.
  apply quietly_for. intros _. unfold pass.
  repeat first
    [ apply quietly_emit | apply quietly_raise | apply quietly_when
    | apply quietly_of_keeps;
        [by apply keeps_subprocess_call | by apply keeps_subprocess_call]
    | apply quietly_bind; [| intros ?] ].
Qed.

Lemma quietly_deliver E a cwd0 : quietly (deliver E a cwd0).
Proof.
  unfold deliver. apply quietly_bind.
  { destruct (negb _); [| apply quietly_ret].
    apply quietly_bind; [| intros; apply quietly_ret].
    apply quietly_of_keeps; apply keeps_getitem. }
  intros out. apply quietly_bind; [apply quietly_emit |].
  intros _. destruct out as [s|]; [| apply quietly_ret].
  destruct (String.eqb s "-").
  - apply quietly_of_keeps; apply keeps_dump.
  - destruct (truthy _); [| apply quietly_ret].
    apply quietly_of_keeps; by apply keeps_copyfile.
Qed.

Lemma quietly_pipeline E a cwd0 names code :
  quietly (pipeline E a cwd0 names code).
Proof.
  unfold pipeline.
  repeat first
    [ apply quietly_stage | apply quietly_compile | apply quietly_deliver
    | apply quietly_emit | apply quietly_raise | apply quietly_when
    | apply quietly_of_keeps; [by apply keeps_assert | by apply keeps_assert]
    | apply quietly_of_keeps; [by apply keeps_write_text | by apply keeps_write_text]
    | apply quietly_of_keeps; [by apply keeps_isfile | by apply keeps_isfile]
    | apply quietly_bind; [| intros ?] ].
Qed.

Lemma quietly_tempdir {A} E (body : string -> M A) :
  (forall d, quietly (body d)) -> quietly (tempdir E body).
Proof.
  intros Hb. unfold tempdir, cd.
  repeat first
    [ apply Hb | apply quietly_try_finally
    | apply quietly_of_keeps; [by apply keeps_mkdtemp | by apply keeps_mkdtemp]
    | apply quietly_of_keeps; [by apply keeps_getcwd | by apply keeps_getcwd]
    | apply quietly_of_keeps; [by apply keeps_chdir | by apply keeps_chdir]
    | apply quietly_of_keeps; [by apply keeps_rmtree | by apply keeps_rmtree]
    | apply quietly_bind; [| intros ?] ].
Qed.

End Quiet.

(** With [quiet] set, a run of [main] adds nothing but [ERROR] records to
    the log, whatever happens in it. *)
Theorem main_quiet (E : env) (a : args) (w : world) :
  quiet a = true ->
  exists new, log (main E a w).2 = log w ++ new /\
              Forall (fun r => r.1 = ERROR) new.
Proof.
  intros Hq. destruct (decide (file a = [])) as [Hf|Hf].
  { rewrite (main_without_input E a w Hf). eexists. split; [reflexivity |].
    by repeat constructor. }
  rewrite (main_prelude E a w Hf).
  assert (Hpre : prelude E a w = set_loglevel ERROR w).
  { unfold prelude, emit. by rewrite Hq. }
  rewrite Hpre.
  destruct (quietly_tempdir E
    (fun _ => pipeline E a (cwd w) (staged_names (file a))
                (buildlatex E (latexoptions E a) (staged_names (file a))))
    (fun _ => quietly_pipeline _ _ _ _ _) (set_loglevel ERROR w) eq_refl)
    as (_ & new & Hlog & Hnew).
  by exists new.
Qed.

Lemma main_quiet_witness :
  exists new,
    log (main (demo_env true 3 false) (Args ["foo/bar.py"] None true) demo_world).2
      = log demo_world ++ new /\
    Forall (fun r => r.1 = ERROR) new.
Proof.
  apply (main_quiet (demo_env true 3 false) (Args ["foo/bar.py"] None true)
           demo_world eq_refl).
Defined.

(** ** Delivery to an explicit destination *)

Section Explicit.

Lemma after_compile_explicit E a cwd0 w b s :
  files w !! Path.join (cwd w) pdffile = Some b ->
  output a = Some s -> s <> "" -> s <> "-" ->
  Path.isabs cwd0 = true ->
  Path.join cwd0 s <> Path.join (cwd w) pdffile ->
  (after_compile E a cwd0 w).1 = Ok tt /\
  files (after_compile E a cwd0 w).2 = <[Path.join cwd0 s := b]> (files w).
Proof.
  intros Hpdf Ho Hne Hnd Habs Hdiff.
  set (w1 := (logging_debug ("Output to " +:+ s) w).2).
  assert (Hc : cwd w1 = cwd w) by by apply (keeps_logging_debug cwd).
  assert (Hfs : files w1 = files w) by by apply (keeps_logging_debug files).
  assert (Ht : truthy (Some s) = true).
  { unfold truthy. by apply negb_true_iff, String.eqb_neq. }
  assert (Hrun : after_compile E a cwd0 w =
            (Ok tt, set_files (<[Path.join cwd0 s := b]> (files w)) w1)).
  { unfold after_compile.
    rewrite (bind_ok (isfile _) _ w true w).
    2:{ unfold isfile. rewrite Hpdf. by rewrite bool_decide_eq_true_2. }
    cbn [negb when_]. rewrite (bind_ok (ret ()) _ w tt w) by done.
    unfold deliver. rewrite Ho, Ht. cbn [negb].
    rewrite (bind_ok (ret _) _ w (Some s) w) by done.
    rewrite (bind_ok (logging_debug _) _ w tt w1) by done.
    rewrite (proj2 (String.eqb_neq s "-") Hnd), Ht.
    unfold copyfile. rewrite Hc, Hfs.
    rewrite (join_absolute (cwd w) (Path.join cwd0 s)) by by apply join_isabs.
    destruct (String.eqb_spec (Path.join (cwd w) pdffile) (Path.join cwd0 s))
      as [Heq|_]; [by destruct Hdiff |].
    by rewrite Hpdf. }
  by rewrite Hrun.
Qed.

End Explicit.

(** An explicit destination other than [-] that names an existing file is
    overwritten with the artifact: when the two passes returned zero and
    left the artifact, and the destination, joined to the directory the run
    started in, is a regular file outside the sandbox once the compiler is
    done, the run ends normally with the artifact's bytes at that path,
    which is the destination itself when it is absolute.  (A destination
    that does not exist yet needs its directory to exist, which the state
    does not record for a path the user chooses.) *)
Theorem explicit_destination (E : env) (a : args) (w : world) (sb s : string)
    (c1 c2 : call) (b : bytes) :
  sandbox_of E sb -> world_ok w -> rmtree_ok E = true ->
  output a = Some s -> s <> "" -> s <> "-" ->
  Path.under sb (Path.join (cwd w) s) = false ->
  calls (main E a w).2 = calls w ++ [c1; c2] ->
  status c1 = 0%Z -> status c2 = 0%Z ->
  fs_after c2 !! Path.join sb pdffile = Some b ->
  is_Some (fs_after c2 !! Path.join (cwd w) s) ->
  (main E a w).1 = Ok tt /\
  files (main E a w).2 !! Path.join (cwd w) s = Some b /\
  (Path.isabs s = true -> Path.join (cwd w) s = s).
Proof.
  intros Hsb Hw Hrm Ho Hne Hnd Hu Hcalls H1 H2 Hb _.
  destruct (run_both_passes E a w sb c1 c2 Hsb Hw Hcalls H1 H2)
    as (Hf & w4 & Hfs & Hcwd & _ & Hrun).
  destruct (after_compile_explicit E a (cwd w) w4 b s) as (Hr & Hfiles);
    try done.
  - by rewrite Hcwd, Hfs.
  - apply Hw.
  - rewrite Hcwd. intros Heq. rewrite Heq in Hu. by rewrite under_join in Hu.
  - rewrite (main_run E a w sb Hsb Hw Hf), Hrm, Hrun. cbn [fst snd].
    split; [done |]. split; [| apply join_absolute].
    rewrite removed_lookup, Hu. cbn [files set_cwd].
    rewrite Hfiles. apply lookup_insert_eq.
Qed.

Lemma explicit_destination_witness :
  (main (demo_env true 0 true) (demo_args (Some "/home/u/foo/bar.py")) demo_world).1
    = Ok tt /\
  files (main (demo_env true 0 true) (demo_args (Some "/home/u/foo/bar.py"))
           demo_world).2 !! "/home/u/foo/bar.py" = Some demo_pdf.
Proof.
  pose (r := main (demo_env true 0 true) (demo_args (Some "/home/u/foo/bar.py"))
               demo_world).
  destruct (explicit_destination (demo_env true 0 true)
    (demo_args (Some "/home/u/foo/bar.py")) demo_world "/tmp/tmpq1w2e3"
    "/home/u/foo/bar.py" (run_call r 0) (run_call r 1) demo_pdf) as (H1 & H2 & _).
  - apply demo_sandbox.
  - apply demo_world_ok.
  - reflexivity.
  - reflexivity.
  - discriminate.
  - discriminate.
  - reflexivity.
  - vm_compute; reflexivity.
  - vm_compute; reflexivity.
  - vm_compute; reflexivity.
  - vm_compute; reflexivity.
  - exists [Byte.x61]. vm_compute; reflexivity.
  - split; [exact H1 | exact H2].
Defined.

(** The default destination lies beside the first input: joined to the
    working directory, the input path and the derived path agree up to the
    extension, which [.pdf] replaces; an absolute input keeps its own
    directory. *)
Theorem default_beside_input (c f : string) :
  exists x,
    Path.join c f = x +:+ (Path.splitext f).2 /\
    Path.join c ((Path.splitext f).1 +:+ ".pdf") = x +:+ ".pdf" /\
    (Path.isabs f = true -> x = (Path.splitext f).1).
Proof.
  destruct (Path.isabs f) eqn:Hf.
  - exists (Path.splitext f).1.
    assert (Hr : Path.isabs ((Path.splitext f).1 +:+ ".pdf") = true).
    { pose proof (splitext_append f) as Happ.
      destruct (Path.splitext f).1 as [|x r] eqn:Hroot.
      - rewrite <- Happ in Hf.
        change (Path.isabs (Path.splitext f).2 = true) in Hf.
        by rewrite splitext_ext_relative in Hf.
      - rewrite <- Happ in Hf. by rewrite append_cons in *. }
    rewrite !join_absolute by done. by rewrite splitext_append.
  - destruct (join_stem c (Path.splitext f).1 (Path.splitext f).2 ".pdf")
      as (x & E1 & E2); [apply splitext_ext_relative | done |].
    rewrite splitext_append in E1. exists x. done.
Qed.

(** ** Staged names and extensions *)

Section Extensions.

Implicit Types (c : ascii) (p h e t : string).

Lemma all_append q h e : Str.all q (h +:+ e) = Str.all q h && Str.all q e.
Proof.
  induction h as [|a h IH]; [done |].
  rewrite append_cons. simpl. by rewrite IH, andb_assoc.
Qed.

Lemma rfind_neg_all c p :
  (Str.rfind c p < 0)%Z -> Str.all (fun a => negb (Ascii.eqb a c)) p = true.
Proof.
  induction p as [|a p IH]; [done |]. simpl.
  destruct (Z.leb_spec 0 (Str.rfind c p)) as [Hr|Hr]; [lia |].
  destruct (Ascii.eqb a c); [lia |]. intros _. by rewrite IH.
Qed.

Lemma rfind_none c p :
  Str.all (fun a => negb (Ascii.eqb a c)) p = true -> Str.rfind c p = (-1)%Z.
Proof.
  induction p as [|a p IH]; [done |]. simpl.
  intros [Ha Hp]%andb_true_iff. rewrite (IH Hp). simpl.
  by destruct (Ascii.eqb a c).
Qed.

Lemma rfind_append_last c h t :
  Str.all (fun a => negb (Ascii.eqb a c)) t = true ->
  Str.rfind c (h +:+ String c t) = Z.of_nat (String.length h).
Proof.
  intros Ht. induction h as [|a h IH].
  - change ("" +:+ String c t) with (String c t). simpl.
    rewrite (rfind_none c t Ht). simpl. by rewrite Ascii.eqb_refl.
  - rewrite append_cons. simpl Str.rfind. rewrite IH.
    destruct (Z.leb_spec 0 (Z.of_nat (String.length h))); [| lia].
    simpl String.length. lia.
Qed.

(** Where [rfind] finds the character, nothing after it is that
    character. *)
Lemma rfind_decompose c p :
  (0 <= Str.rfind c p)%Z ->
  exists h t, p = h +:+ String c t /\
    Str.all (fun a => negb (Ascii.eqb a c)) t = true /\
    Z.of_nat (String.length h) = Str.rfind c p.
Proof.
  induction p as [|a p IH]; simpl; [lia |].
  destruct (Z.leb_spec 0 (Str.rfind c p)) as [Hr|Hr].
  - intros _. destruct (IH Hr) as (h & t & -> & Ht & Hlen).
    exists (String a h), t. rewrite append_cons. split; [done |].
    split; [done |]. simpl String.length. lia.
  - destruct (Ascii.eqb_spec a c) as [->|]; [| lia].
    intros _. exists "", p. split; [done |]. split; [| done].
    apply rfind_neg_all. lia.
Qed.

Lemma rfind_before c h e :
  (Str.rfind c (h +:+ e) < Z.of_nat (String.length h))%Z ->
  Str.all (fun a => negb (Ascii.eqb a c)) e = true.
Proof.
  induction h as [|a h IH].
  - change ("" +:+ e) with e. simpl. apply rfind_neg_all.
  - rewrite append_cons. simpl Str.rfind. simpl String.length.
    intros H. apply IH.
    destruct (Z.leb_spec 0 (Str.rfind c (h +:+ e))); [lia |].
    pose proof (rfind_ge c (h +:+ e)). lia.
Qed.

Lemma substring_take h e : String.substring 0 (String.length h) (h +:+ e) = h.
Proof.
  induction h as [|a h IH]; [by destruct e |].
  rewrite append_cons. simpl. by rewrite IH.
Qed.

Lemma length_append h e :
  String.length (h +:+ e) = (String.length h + String.length e)%nat.
Proof. induction h as [|a h IH]; [done |]. rewrite append_cons. simpl. by rewrite IH. Qed.

Lemma substring_drop h e :
  String.substring (String.length h)
    (String.length (h +:+ e) - String.length h) (h +:+ e) = e.
Proof.
  induction h as [|a h IH].
  - change ("" +:+ e) with e. simpl. rewrite Nat.sub_0_r. apply substring_all.
  - rewrite append_cons. simpl. apply IH.
Qed.

(** An extension is empty, or a dot followed by characters that are
    neither dots nor separators. *)
Lemma splitext_ext_shape p :
  (Path.splitext p).2 = "" \/
  exists t, (Path.splitext p).2 = String Path.extsep t /\
    Str.all nodot t = true /\ Str.all nosep t = true.
Proof.
  unfold Path.splitext.
  destruct (Z.ltb_spec (Str.rfind Path.sep p) (Str.rfind Path.extsep p)) as [Hlt|];
    [| by left].
  destruct (Str.all _ _); [by left |]. right. cbn [snd].
  pose proof (rfind_ge Path.sep p) as Hge.
  destruct (rfind_decompose Path.extsep p) as (h & t & Hp & Ht & Hlen); [lia |].
  rewrite <- Hlen in Hlt |- *. clear Hlen Hge. subst p.
  exists t. unfold Str.slice_from. rewrite Nat2Z.id, substring_drop.
  split; [done |]. split; [exact Ht |].
  apply rfind_before in Hlt. simpl in Hlt. exact Hlt.
Qed.

(** Splitting a dot-free, separator-free stem followed by an extension
    gives back the stem and the extension. *)
Lemma splitext_stem_ext a h e :
  Str.all nodot (String a h) = true -> Str.all nosep (String a h) = true ->
  (e = "" \/ exists t, e = String Path.extsep t /\
      Str.all nodot t = true /\ Str.all nosep t = true) ->
  Path.splitext (String a h +:+ e) = (String a h, e).
Proof.
  intros Hd Hs He. unfold Path.splitext.
  destruct He as [->|(t & -> & Htd & Hts)].
  - rewrite append_nil_r.
    rewrite (rfind_none Path.sep _ Hs), (rfind_none Path.extsep _ Hd). done.
  - rewrite (rfind_none Path.sep).
    2:{ rewrite all_append. fold nosep. rewrite Hs. simpl. exact Hts. }
    rewrite (rfind_append_last Path.extsep _ t Htd).
    destruct (Z.ltb_spec (-1) (Z.of_nat (String.length (String a h)))); [| lia].
    unfold Str.slice, Str.slice_from. rewrite !Nat2Z.id.
    change (Z.to_nat (-1 + 1)) with 0%nat. change (Z.to_nat 0) with 0%nat.
    rewrite !Nat.sub_0_r, !substring_take, substring_drop.
    simpl in Hd. apply andb_true_iff in Hd as [Ha _]. unfold nodot in Ha.
    apply negb_true_iff in Ha. cbn [Str.all]. by rewrite Ha.
Qed.

Lemma string_of_uint_nosep d : Str.all nosep (NilEmpty.string_of_uint d) = true.
Proof. induction d; simpl; auto. Qed.

Lemma of_nat_nosep n : Str.all nosep (Str.of_nat n) = true.
Proof.
  unfold Str.of_nat, NilZero.string_of_uint.
  destruct (Nat.to_uint n); try done; apply (string_of_uint_nosep (_ _)).
Qed.

End Extensions.

(** A staged file keeps the extension of its input and nothing else of
    its path: [splitext] of the [i]-th staged name returns the stem
    [source<i>] and the extension of the [i]-th input, and the name holds
    no path separator, so the file lies directly in the sandbox. *)
Theorem staged_name_keeps_extension (inputs : list string) (i : nat) (f : string) :
  inputs !! i = Some f ->
  exists n, staged_names inputs !! i = Some n /\
    Path.splitext n = ("source" +:+ Str.of_nat i, (Path.splitext f).2) /\
    Str.all nosep n = true.
Proof.
  intros Hf. exists (staged_name i f).
  split; [by rewrite staged_names_lookup, Hf |].
  unfold staged_name. rewrite <- append_assoc.
  change ("source" +:+ Str.of_nat i) with (String "s" ("ource" +:+ Str.of_nat i)).
  assert (Hd : Str.all nodot (String "s" ("ource" +:+ Str.of_nat i)) = true).
  { simpl. rewrite all_append, of_nat_nodot. done. }
  assert (Hs : Str.all nosep (String "s" ("ource" +:+ Str.of_nat i)) = true).
  { simpl. rewrite all_append, of_nat_nosep. done. }
  split.
  - apply splitext_stem_ext; [done | done | apply splitext_ext_shape].
  - rewrite all_append, Hs.
    destruct (splitext_ext_shape f) as [->|(t & -> & _ & Ht)]; [done |].
    simpl. exact Ht.
Qed.

Lemma staged_name_keeps_extension_witness :
  exists n, staged_names ["a/b.tar.gz"; "src/x.y/Makefile"] !! 1%nat = Some n /\
    Path.splitext n
      = ("source" +:+ Str.of_nat 1, (Path.splitext "src/x.y/Makefile").2) /\
    Str.all nosep n = true.
Proof.
  apply (staged_name_keeps_extension ["a/b.tar.gz"; "src/x.y/Makefile"] 1
           "src/x.y/Makefile" eq_refl).
Defined.

(** ** What staging and writing the document touch *)

Section Below.

Lemma writes_below_of_keeps {A} (m : M A) :
  keeps cwd m -> keeps files m -> writes_below m.
Proof. intros Hc Hf w. split; [apply Hc |]. intros k _. by rewrite Hf. Qed.

Lemma writes_below_bind {A B} (m : M A) (k : A -> M B) :
  writes_below m -> (forall x, writes_below (k x)) -> writes_below (bind m k).
Proof.
  intros Hm Hk w. unfold bind. destruct (Hm w) as [Hc Hf].
  destruct (m w) as [[x|e] w1]; simpl in *; [| done].
  destruct (Hk x w1) as [Hc' Hf']. split; [congruence |].
  intros q Hq. rewrite Hf' by by rewrite Hc. by apply Hf.
Qed.

Lemma writes_below_for {A} (l : list A) body :
  (forall x, x ∈ l -> writes_below (body x)) -> writes_below (for_ l body).
Proof.
  induction l as [|x l IH]; intros Hb; simpl.
  - apply writes_below_of_keeps; apply keeps_ret.
  - apply writes_below_bind; [apply Hb; by left |].
    intros _. apply IH. intros y Hy. apply Hb. by right.
Qed.

Lemma writes_below_copyfile src n :
  Path.isabs n = false -> writes_below (copyfile src n).
Proof.
  intros Hn w. unfold copyfile.
  destruct (String.eqb _ _); [done |].
  destruct (files w !! _) as [b|]; [| done]. simpl. split; [done |].
  intros k Hk. apply lookup_insert_ne. intros <-.
  by rewrite under_join in Hk.
Qed.

Lemma writes_below_write_text E n text :
  Path.isabs n = false -> writes_below (write_text E n text).
Proof.
  intros Hn w. unfold write_text. simpl. split; [done |].
  intros k Hk. apply lookup_insert_ne. intros <-.
  by rewrite under_join in Hk.
Qed.

Lemma writes_below_stage cwd0 inputs names :
  Forall (fun n => Path.isabs n = false) names ->
  writes_below (stage cwd0 inputs names).
Proof.
  intros Hrel. apply writes_below_for. intros [f n] Hin.
  assert (Hn : Path.isabs n = false).
  { apply elem_of_zip_r in Hin. rewrite Forall_forall in Hrel. auto. }
  unfold stage_one.
  apply writes_below_bind;
    [apply writes_below_of_keeps; by apply keeps_isfile | intros ok].
  apply writes_below_bind.
  { apply writes_below_of_keeps; apply keeps_when;
      (apply keeps_bind; [by apply keeps_logging_error | intros; apply keeps_sys_exit]). }
  intros _. apply writes_below_bind; [by apply writes_below_copyfile |].
  intros _. apply writes_below_of_keeps; by apply keeps_logging_debug.
Qed.

Lemma staged_names_relative inputs :
  Forall (fun n => Path.isabs n = false) (staged_names inputs).
Proof.
  apply Forall_forall. intros n (i & f & _ & ->)%staged_names_elem.
  apply staged_name_relative.
Qed.

End Below.

(** Staging never touches a file outside the working directory, however
    it ends: the inputs are only read, and whatever was staged before a
    failure lies in the sandbox. *)
Theorem stage_writes_below (cwd0 : string) (inputs : list string) (w : world)
    (k : string) :
  Path.under (cwd w) k = false ->
  files (stage cwd0 inputs (staged_names inputs) w).2 !! k = files w !! k /\
  cwd (stage cwd0 inputs (staged_names inputs) w).2 = cwd w.
Proof.
  intros Hk.
  destruct (writes_below_stage cwd0 inputs (staged_names inputs)
              (staged_names_relative inputs) w) as [Hc Hf].
  split; [by apply Hf | done].
Qed.

Lemma stage_writes_below_witness :
  files (stage "/home/u" ["foo/bar.py"; "nope.c"]
           (staged_names ["foo/bar.py"; "nope.c"]) demo_inside).2
    !! "/home/u/foo/bar.py" = Some [Byte.x61].
Proof.
  destruct (stage_writes_below "/home/u" ["foo/bar.py"; "nope.c"] demo_inside
              "/home/u/foo/bar.py") as [H _].
  - reflexivity.
  - rewrite H. reflexivity.
Defined.

(** A run that fails on a missing input leaves standard output and every
    file outside the sandbox as they were; nothing is left in the
    sandbox. *)
Theorem missing_input_changes_nothing (E : env) (a : args) (w : world)
    (sb f : string) :
  sandbox_of E sb -> world_ok w -> rmtree_ok E = true ->
  inputs_outside sb w a ->
  f ∈ file a -> files w !! Path.join (cwd w) f = None ->
  stdout (main E a w).2 = stdout w /\
  forall k, files (main E a w).2 !! k
            = if Path.under sb k then None else files w !! k.
Proof.
  intros Hsb Hw Hrm Hout Hf Hnone.
  assert (Hfile : file a <> []) by (intros Hnil; rewrite Hnil in Hf; by inversion Hf).
  split; [by apply keeps_main |].
  destruct (stage_missing (cwd w) sb (proj1 Hw) (file a) (staged_names (file a))
              (entered E a sb w)) as (f' & w' & _ & _ & Hrun & _ & _).
  - reflexivity.
  - apply staged_names_length.
  - apply staged_names_relative.
  - exact Hout.
  - apply Exists_exists. exists f. by rewrite entered_files.
  - intros k. rewrite (main_run E a w sb Hsb Hw Hfile), Hrm.
    cbn [fst snd]. rewrite removed_lookup.
    destruct (Path.under sb k) eqn:Hk; [done |].
    unfold suite_run, pipeline. rewrite (bind_raise _ _ _ _ _ Hrun).
    cbn [snd files set_cwd].
    destruct (writes_below_stage (cwd w) (file a) (staged_names (file a))
                (staged_names_relative _) (entered E a sb w)) as [_ Hfr].
    rewrite Hrun in Hfr. cbn [snd] in Hfr.
    rewrite Hfr by exact Hk. by rewrite entered_files.
Qed.

Lemma missing_input_changes_nothing_witness :
  files (main (demo_env true 0 true) (Args ["foo/bar.py"; "nope.c"] None false)
           demo_world).2 !! "/home/u/foo/bar.py" = Some [Byte.x61].
Proof.
  destruct (missing_input_changes_nothing (demo_env true 0 true)
    (Args ["foo/bar.py"; "nope.c"] None false) demo_world
    "/tmp/tmpq1w2e3" "nope.c") as [_ H].
  - apply demo_sandbox.
  - apply demo_world_ok.
  - reflexivity.
  - by repeat constructor.
  - apply list_elem_of_In. simpl. auto.
  - by vm_compute.
  - rewrite H. reflexivity.
Defined.

(** After staging inputs that all exist in an empty sandbox, the document
    is written beside the staged files without replacing any of them: the
    sandbox holds the encoded document under [mintscript.tex] and every
    staged copy, and no file outside it has changed. *)
Theorem document_written (E : env) (a : args) (cwd0 code : string) (w : world) :
  Path.isabs cwd0 = true ->
  (forall k, Path.under (cwd w) k = true -> files w !! k = None) ->
  Forall (fun f => is_Some (files w !! Path.join cwd0 f)) (file a) ->
  exists w',
    before_compile E a cwd0 (staged_names (file a)) code w = (Ok tt, w') /\
    cwd w' = cwd w /\
    files w' !! Path.join (cwd w) texfile = Some (encode E code) /\
    (forall i f, file a !! i = Some f ->
       files w' !! Path.join (cwd w)
                     ("source" +:+ Str.of_nat i +:+ (Path.splitext f).2)
         = files w !! Path.join cwd0 f) /\
    (forall k, Path.under (cwd w) k = false -> files w' !! k = files w !! k).
Proof.
  intros Habs Hempty Hin.
  destruct (stage_ok cwd0 (cwd w) Habs (file a) (staged_names (file a)) w)
    as (w1 & Hrun & Hc1 & Hcopy & Hframe); try done.
  { apply staged_names_length. }
  { apply staged_names_relative. }
  { apply staged_names_NoDup. }
  { eapply Forall_impl; [exact Hin |]. intros f Hs. split; [| done].
    destruct (Path.under (cwd w) (Path.join cwd0 f)) eqn:Hu; [| done].
    simpl in Hs. rewrite (Hempty _ Hu) in Hs. by destruct Hs. }
  set (w2 := set_files (<[Path.join (cwd w) texfile := encode E code]> (files w1)) w1).
  set (msg := "LaTeX code:" +:+ String "010" code).
  exists (logging_debug msg w2).2.
  assert (Hfs : files (logging_debug msg w2).2 = files w2)
    by by apply (keeps_logging_debug files).
  assert (Hrel : Path.isabs texfile = false) by done.
  split; [| split; [| split; [| split]]].
  - unfold before_compile. rewrite (bind_ok _ _ _ _ _ Hrun).
    rewrite bool_decide_eq_false_2 by apply texfile_not_staged.
    rewrite (bind_ok (assert_ _) _ w1 tt w1) by done.
    rewrite (bind_ok (write_text _ _ _) _ w1 tt w2); [done |].
    unfold write_text. by rewrite Hc1.
  - by rewrite (keeps_logging_debug cwd).
  - rewrite Hfs. apply lookup_insert_eq.
  - intros i f Hf. rewrite Hfs. cbn [files set_files w2].
    rewrite lookup_insert_ne.
    + apply (Hcopy i f (staged_name i f) Hf).
      by rewrite staged_names_lookup, Hf.
    + intros Heq. apply join_inj in Heq; [| done | apply staged_name_relative].
      by apply (staged_name_not_texfile i f).
  - intros k Hk. rewrite Hfs. cbn [files set_files w2].
    rewrite lookup_insert_ne.
    + apply Hframe. intros n Hn ->.
      pose proof (staged_names_relative (file a)) as Hr.
      rewrite Forall_forall in Hr. by rewrite under_join in Hk by auto.
    + intros <-. by rewrite under_join in Hk.
Qed.

Lemma document_written_witness :
  exists w',
    before_compile (demo_env true 0 true) (demo_args None) "/home/u"
      (staged_names (file (demo_args None))) "doc" demo_inside = (Ok tt, w') /\
    files w' !! "/tmp/tmpq1w2e3/mintscript.tex" = Some [] /\
    files w' !! "/tmp/tmpq1w2e3/source0.py" = Some [Byte.x61].
Proof.
  destruct (document_written (demo_env true 0 true) (demo_args None) "/home/u"
              "doc" demo_inside) as (w' & Hrun & _ & Hdoc & Hcopy & _).
  - reflexivity.
  - intros k Hk. apply lookup_singleton_None. intros <-. by vm_compute in Hk.
  - repeat constructor. by eexists.
  - exists w'. split; [exact Hrun |]. split; [exact Hdoc |].
    exact (Hcopy 0%nat "foo/bar.py" eq_refl).
Defined.

(** ** A failing compiler pass *)

Section FailingPass.

Lemma pass_failed E w c :
  calls (pass E w).2 = calls w ++ [c] -> status c <> 0%Z ->
  (pass E w).1 = Raise (SystemExit (status c)) /\
  files (pass E w).2 = fs_after c /\
  (ERROR, "xelatex failed with return code " +:+ Str.of_Z (status c))
    ∈ log (pass E w).2.
Proof.
  destruct (xelatex E commandline (cwd w) (files w)) as [st fs] eqn:Hx.
  set (c0 := Call commandline st fs).
  set (w1 := set_calls (calls w ++ [c0]) (set_files fs w)).
  assert (Hsub : subprocess_call E commandline w = (Ok st, w1)).
  { unfold subprocess_call. by rewrite Hx. }
  assert (Hrun : pass E w =
    if (st =? 0)%Z then (Ok tt, w1)
    else (Raise (SystemExit st),
          set_log (log w1 ++ [(ERROR, "xelatex failed with return code "
                                       +:+ Str.of_Z st)]) w1)).
  { unfold pass. rewrite (bind_ok _ _ _ _ _ Hsub).
    destruct (st =? 0)%Z; cbn [negb when_]; [done |].
    erewrite bind_ok by apply emit_error_run. done. }
  rewrite Hrun.
  destruct (Z.eqb_spec st 0) as [Hst|Hst]; cbn [fst snd calls set_calls set_log];
    intros Hc Hne; apply app_inv_head in Hc; injection Hc as <-.
  - done.
  - split; [done |]. split; [done |].
    cbn [log set_log status c0]. apply elem_of_app. right.
    by apply list_elem_of_singleton.
Qed.

(** The loop, when its last recorded pass returned a non-zero status. *)
Lemma compile_failed E w pre c :
  calls (compile E w).2 = calls w ++ pre ++ [c] -> status c <> 0%Z ->
  (compile E w).1 = Raise (SystemExit (status c)) /\
  files (compile E w).2 = fs_after c /\
  (ERROR, "xelatex failed with return code " +:+ Str.of_Z (status c))
    ∈ log (compile E w).2.
Proof.
  change (compile E w) with ((pass E ;; pass E ;; ret tt) w).
  unfold bind.
  destruct (pass_cases E w) as (c1 & _ & Hc1 & _ & _ & _ & Hr1).
  pose proof (pass_failed E w c1) as Hf1.
  destruct (pass E w) as [r1 w1]. cbn [fst snd] in *.
  destruct Hr1 as [[Hs1 ->]|[Hs1 ->]].
  2:{ cbn [fst snd]. intros Hc Hne. rewrite Hc1 in Hc.
      apply app_inv_head in Hc.
      apply (app_inj_tail [] pre c1 c) in Hc as [_ ->].
      destruct (Hf1 Hc1 Hs1) as (_ & H2 & H3). done. }
  destruct (pass_cases E w1) as (c2 & _ & Hc2 & _ & _ & _ & Hr2).
  pose proof (pass_failed E w1 c2) as Hf2.
  destruct (pass E w1) as [r2 w2]. cbn [fst snd] in *.
  assert (Hcalls : calls w2 = calls w ++ [c1] ++ [c2]).
  { by rewrite Hc2, Hc1, <- app_assoc. }
  destruct Hr2 as [[Hs2 ->]|[Hs2 ->]]; cbn [fst snd ret];
    intros Hc Hne; rewrite Hcalls in Hc; apply app_inv_head in Hc;
    apply (app_inj_tail [c1] pre c2 c) in Hc as [_ ->].
  - done.
  - destruct (Hf2 Hc2 Hs2) as (_ & H2 & H3). done.
Qed.

End FailingPass.

(** When the last compiler pass a run made returned a non-zero status,
    the run exits with that status and delivers nothing: standard output
    is untouched, the files are those that pass left, less the sandbox,
    and the log names the status. *)
Theorem compiler_failure_delivers_nothing (E : env) (a : args) (w : world)
    (sb : string) (pre : list call) (c : call) :
  sandbox_of E sb -> world_ok w -> rmtree_ok E = true ->
  calls (main E a w).2 = calls w ++ pre ++ [c] -> status c <> 0%Z ->
  (main E a w).1 = Raise (SystemExit (status c)) /\
  stdout (main E a w).2 = stdout w /\
  (forall k, files (main E a w).2 !! k
             = if Path.under sb k then None else fs_after c !! k) /\
  (ERROR, "xelatex failed with return code " +:+ Str.of_Z (status c))
    ∈ log (main E a w).2.
Proof.
  intros Hsb Hw Hrm Hcalls Hne.
  assert (Hf : file a <> []).
  { intros Hf. destruct (main_no_input E a w Hf) as [_ Hc].
    rewrite Hc in Hcalls. rewrite <- (app_nil_r (calls w)) in Hcalls at 1.
    apply app_inv_head in Hcalls. by destruct pre. }
  destruct (main_calls E a w sb Hsb Hw Hf) as (Hmc & _ & Hml).
  split; [| split; [by apply keeps_main |]].
  all: rewrite ?Hml; rewrite Hmc in Hcalls;
    rewrite (main_run E a w sb Hsb Hw Hf), Hrm; cbn [fst snd];
    unfold suite_run in *; rewrite pipeline_split in *.
  all: set (bc := before_compile E a (cwd w) (staged_names (file a))
                   (buildlatex E (latexoptions E a) (staged_names (file a)))) in *.
  all: assert (Hbc : keeps calls bc) by
    (unfold bc, before_compile;
     repeat first
       [ apply keeps_stage | apply keeps_assert | apply keeps_write_text
       | apply keeps_logging_debug | apply keeps_bind; [| intros ?] | done ]).
  all: specialize (Hbc (entered E a sb w)); rewrite entered_calls in Hbc.
  all: destruct (bc (entered E a sb w)) as [[[]|e] w3] eqn:Hb; cbn [snd] in Hbc.
  all: try (rewrite (bind_raise _ _ _ _ _ Hb) in Hcalls; cbn [snd] in Hcalls;
            rewrite Hbc in Hcalls; rewrite <- (app_nil_r (calls w)) in Hcalls at 1;
            apply app_inv_head in Hcalls; by destruct pre).
  all: rewrite (bind_ok _ _ _ _ _ Hb) in Hcalls |- *.
  all: assert (Hac : keeps calls (after_compile E a (cwd w))) by
    (unfold after_compile;
     repeat first
       [ apply keeps_deliver | apply keeps_isfile | apply keeps_sys_exit
       | apply keeps_logging_error | apply keeps_when
       | apply keeps_bind; [| intros ?] | done ]).
  all: assert (Hcc : calls (compile E w3).2 = calls w3 ++ pre ++ [c]) by
    (revert Hcalls; unfold bind;
     destruct (compile E w3) as [[[]|e'] w4]; cbn [snd];
     rewrite ?Hac, Hbc; done).
  all: destruct (compile_failed E w3 pre c Hcc Hne) as (Hr & Hfs & Hlog).
  all: destruct (compile E w3) as [r4 w4] eqn:Hc; cbn [fst snd] in Hr, Hfs, Hlog;
    subst r4; rewrite (bind_raise _ _ _ _ _ Hc); cbn [fst snd].
  - done.
  - split; [| done]. intros k. rewrite removed_lookup. cbn [files set_cwd].
    by rewrite Hfs.
Qed.

Lemma compiler_failure_delivers_nothing_witness :
  (main (demo_env true 3 false) (demo_args None) demo_world).1
    = Raise (SystemExit 3) /\
  stdout (main (demo_env true 3 false) (demo_args None) demo_world).2 = [].
Proof.
  pose (r := main (demo_env true 3 false) (demo_args None) demo_world).
  destruct (compiler_failure_delivers_nothing (demo_env true 3 false)
    (demo_args None) demo_world "/tmp/tmpq1w2e3" [] (run_call r 0))
    as (H1 & H2 & _).
  - apply demo_sandbox.
  - apply demo_world_ok.
  - reflexivity.
  - by vm_compute.
  - by vm_compute.
  - by split.
Defined.

(** ** Exceptions [main] cannot end with *)

Section Guarded.

Lemma raises_only_ret {A} P (x : A) : raises_only P (ret x).
Proof. by intros w e. Qed.

Lemma raises_only_raise {A} (P : exn -> Prop) e : P e -> raises_only P (@raise A e).
Proof. intros He w e' [= <-]. exact He. Qed.

Lemma raises_only_bind {A B} P (m : M A) (k : A -> M B) :
  raises_only P m -> (forall x, raises_only P (k x)) -> raises_only P (bind m k).
Proof.
  intros Hm Hk w e. unfold bind. specialize (Hm w).
  destruct (m w) as [[x|e'] w1]; cbn [fst] in *.
  - apply Hk.
  - intros [= <-]. by apply Hm.
Qed.

Lemma raises_only_when P b m : raises_only P m -> raises_only P (when_ b m).
Proof. destruct b; [done | intros _; apply raises_only_ret]. Qed.

Lemma raises_only_for {A} P (l : list A) body :
  (forall x, raises_only P (body x)) -> raises_only P (for_ l body).
Proof.
  intros Hb. induction l as [|x l IH]; simpl; [apply raises_only_ret |].
  apply raises_only_bind; auto.
Qed.

Lemma raises_only_try_finally {A} P (body : M A) fin :
  raises_only P body -> raises_only P fin -> raises_only P (try_finally body fin).
Proof.
  intros Hb Hf w e. unfold try_finally. specialize (Hb w).
  destruct (body w) as [r w1]. specialize (Hf w1).
  destruct (fin w1) as [[[]|e'] w2]; cbn [fst] in *.
  - intros Heq. by apply Hb.
  - intros [= <-]. by apply Hf.
Qed.

(** The library calls raise neither [IndexError] nor [AssertionError]. *)
Ltac library_call :=
  intros w e;
  unfold emit, logging_error, logging_debug, setLevel, getcwd, chdir, isfile,
    copyfile, write_text, open_read, stdout_buffer_write, mkdtemp, rmtree,
    subprocess_call, sys_exit, raise;
  repeat case_match; simpl; intros [= <-]; by split.

Lemma guarded_emit lvl msg : raises_only guarded (emit lvl msg).
Proof. library_call. Qed.
Lemma guarded_setLevel l : raises_only guarded (setLevel l).
Proof. library_call. Qed.
Lemma guarded_getcwd : raises_only guarded getcwd.
Proof. library_call. Qed.
Lemma guarded_chdir d : raises_only guarded (chdir d).
Proof. library_call. Qed.
Lemma guarded_isfile p : raises_only guarded (isfile p).
Proof. library_call. Qed.
Lemma guarded_copyfile s d : raises_only guarded (copyfile s d).
Proof. library_call. Qed.
Lemma guarded_write_text E n t : raises_only guarded (write_text E n t).
Proof. library_call. Qed.
Lemma guarded_open_read E n : raises_only guarded (open_read E n).
Proof. library_call. Qed.
Lemma guarded_stdout_write o : raises_only guarded (stdout_buffer_write o).
Proof. library_call. Qed.
Lemma guarded_mkdtemp E : raises_only guarded (mkdtemp E).
Proof. library_call. Qed.
Lemma guarded_rmtree E d : raises_only guarded (rmtree E d).
Proof. library_call. Qed.
Lemma guarded_subprocess_call E cmd : raises_only guarded (subprocess_call E cmd).
Proof. library_call. Qed.
Lemma guarded_sys_exit {A} code : raises_only guarded (@sys_exit A code).
Proof. library_call. Qed.

Ltac guarded_steps :=
  repeat first
    [ apply guarded_emit | apply guarded_setLevel | apply guarded_getcwd
    | apply guarded_chdir | apply guarded_isfile | apply guarded_copyfile
    | apply guarded_write_text | apply guarded_open_read
    | apply guarded_stdout_write | apply guarded_mkdtemp | apply guarded_rmtree
    | apply guarded_subprocess_call | apply guarded_sys_exit
    | apply raises_only_ret | apply raises_only_when
    | apply raises_only_try_finally
    | apply raises_only_bind; [| intros ?] ].

Lemma guarded_stage cwd0 inputs names : raises_only guarded (stage cwd0 inputs names).
Proof.
  apply raises_only_for. intros [o n]. unfold stage_one.
  unfold logging_error, logging_debug. guarded_steps.
Qed.

Lemma guarded_compile E : raises_only guarded (compile E).
Proof.
  apply raises_only_for. intros _. unfold pass, logging_error. guarded_steps.
Qed.

(** [args.file[0]] is read on a list that line 49 found non-empty. *)
Lemma guarded_deliver E a cwd0 :
  file a <> [] -> raises_only guarded (deliver E a cwd0).
Proof.
  intros Hf. unfold deliver, getitem, logging_debug.
  destruct (file a) as [|f0 rest]; [done |]. cbn [lookup list_lookup].
  apply raises_only_bind.
  { destruct (negb _); guarded_steps. }
  intros out. apply raises_only_bind; [apply guarded_emit |]. intros _.
  destruct out as [s|]; [| apply raises_only_ret].
  destruct (String.eqb s "-"); [guarded_steps |].
  destruct (truthy _); guarded_steps.
Qed.

Lemma guarded_pipeline E a cwd0 code :
  file a <> [] ->
  raises_only guarded (pipeline E a cwd0 (staged_names (file a)) code).
Proof.
  intros Hf. unfold pipeline.
  rewrite bool_decide_eq_false_2 by apply texfile_not_staged.
  unfold assert_, logging_debug, logging_error. cbn [negb].
  apply raises_only_bind; [apply guarded_stage | intros _].
  apply raises_only_bind; [apply raises_only_ret | intros _].
  apply raises_only_bind; [apply guarded_write_text | intros _].
  apply raises_only_bind; [apply guarded_emit | intros _].
  apply raises_only_bind; [apply guarded_compile | intros _].
  apply raises_only_bind; [apply guarded_isfile | intros present].
  apply raises_only_bind; [guarded_steps | intros _].
  by apply guarded_deliver.
Qed.

End Guarded.

(** Whatever the arguments and the machine, [main] ends with neither
    [IndexError] nor [AssertionError]: line 82 reads [args.file[0]] only
    after line 49 has seen an input, and the assertion of line 68 holds
    for the names line 55 builds. *)
Theorem main_guarded (E : env) (a : args) (w : world) :
  (main E a w).1 <> Raise IndexError /\ (main E a w).1 <> Raise AssertionError.
Proof.
  assert (H : forall e, (main E a w).1 = Raise e -> guarded e).
  { destruct (decide (file a = [])) as [Hf|Hf].
    - rewrite (main_without_input E a w Hf). intros e [= <-]. by split.
    - rewrite (main_prelude E a w Hf). intros e.
      apply (raises_only_bind guarded (mkdtemp E)).
      + intros w0 e0. unfold mkdtemp. case_match; simpl; intros [= <-]; by split.
      + intros dirpath. unfold cd.
        apply raises_only_bind.
        { intros w0 e0. by unfold getcwd. }
        intros prevdir. apply raises_only_bind.
        { intros w0 e0. unfold chdir. case_match; simpl; intros [= <-]; by split. }
        intros _. apply raises_only_try_finally; [by apply guarded_pipeline |].
        apply raises_only_bind.
        { intros w0 e0. unfold chdir. case_match; simpl; intros [= <-]; by split. }
        intros _ w0 e0. unfold rmtree. case_match; simpl; intros [= <-]; by split. }
  split; intros Heq; destruct (H _ Heq) as [H1 H2]; congruence.
Qed.
